(** * Access control in the Docker proxy of Portainer

    A shallow embedding of [api/portainer.go], [api/http/proxy/filter.go] and
    [api/http/proxy/transport.go], and the properties of the access-control
    proxy that hold (or fail) on it.

    Conventions of the embedding:
    - Go's [int]-based identifiers ([UserID], [TeamID], [UserRole]) are [Z];
      no arithmetic is done on them, only comparisons.
    - [interface{}] values decoded from JSON are the inductive [value];
      a [map[string]interface{}] is a [gmap string value].
    - A function of type [(T, error)] that can also panic returns a [result].
    - Documents are values: the maps of a decoded payload are distinct
      objects, so the in-place decoration of one document is not visible
      through another.
    - The transport threads the list of requests served by the engine through
      a small state monad, so that "the engine was (not) contacted" is a
      statement about that list. *)

From stdpp Require Import gmap strings list fin_maps.
From Stdlib Require Import ZArith Lia Ascii.

#[local] Set Warnings "-register-all".

(** ** Package [portainer] ([api/portainer.go]) *)

Module portainer.

Definition UserID := Z.
Definition UserRole := Z.
Definition TeamID := Z.
Definition ResourceControlID := Z.
Definition ResourceAccessLevel := Z.

(** [Team] represents a list of user accounts. *)
Record Team := { Team_ID : TeamID; Team_Name : string }.

(** [TokenData] represents the data embedded in a JWT token. *)
Record TokenData := {
  TokenData_ID : UserID;
  TokenData_Username : string;
  TokenData_Role : UserRole
}.

(** [ResourceControl] is a reference to a Docker resource with specific
    access controls; [OwnerID] and [AccessLevel] are the deprecated fields. *)
Record ResourceControl := {
  RC_OwnerID : UserID;
  RC_AccessLevel : ResourceAccessLevel;
  RC_ID : ResourceControlID;
  RC_ResourceID : string;
  RC_Users : list UserID;
  RC_Teams : list TeamID
}.

(** [const ( _ UserRole = iota; AdministratorRole; StandardUserRole )] *)
Definition AdministratorRole : UserRole := 1%Z.
Definition StandardUserRole : UserRole := 2%Z.

(** The argument of [ResourceControlService.ResourceControls] at its call
    sites in the transport. *)
Inductive ResourceControlType :=
  | ContainerResourceControl
  | ServiceResourceControl
  | VolumeResourceControl.

(** Go [error] values that the proxy produces or passes on. [ErrExternal]
    stands for an error made by a collaborator (data store, engine). *)
Inductive error :=
  | ErrDockerVolumeIdentifierNotFound
  | ErrDockerContainerIdentifierNotFound
  | ErrDockerServiceIdentifierNotFound
  | ErrMissingContextData
  | ErrExternal (msg : string).

End portainer.

Import portainer.

(** ** Dynamically typed response documents *)

(** What [encoding/json] decodes into an [interface{}]: [nil], [bool],
    a number, [string], [[]interface{}] or [map[string]interface{}]. *)
Inductive value : Type :=
  | VNil
  | VBool (b : bool)
  | VNumber (n : Z)
  | VString (s : string)
  | VArray (l : list value)
  | VObject (m : gmap string value).

(** Outcome of a Go function returning [(A, error)]: a value with a nil
    error, a non-nil error, or a run-time panic (failed type assertion). *)
Inductive result (A : Type) : Type :=
  | Returns (a : A)
  | Fails (e : error)
  | Panics.
Arguments Returns {A} a.
Arguments Fails {A} e.
Arguments Panics {A}.

(** ** Helpers of package [proxy] that the filters and the transport call *)

(** Modelled from the spec: [getResourceControlByResourceID], whose body is
    not part of the sources. "Finds the record matching the resource
    identifier (no match => treated as public)"; the result is a pointer that
    is nil when nothing matches. *)
Definition getResourceControlByResourceID
    (resourceID : string) (resourceControls : list ResourceControl)
  : option ResourceControl :=
  List.find (fun rc => String.eqb resourceID (RC_ResourceID rc)) resourceControls.

(** Modelled from the spec: [canUserAccessResource], whose body is not part of
    the sources. Its three arguments are those of its two call sites
    ([transport.go:119], [filter.go:21]); the record is a pointer, nil in
    [restrictedOperation] when the resource has no control. The body follows
    the access decision of the specification, "control == null OR caller.id in
    control.users OR groups /\ control.groups <> {}"; the role of the caller
    is not among the arguments. *)
Definition canUserAccessResource
    (userID : UserID) (userTeamIDs : list TeamID)
    (resourceControl : option ResourceControl) : bool :=
  match resourceControl with
  | None => true
  | Some rc =>
      existsb (Z.eqb userID) (RC_Users rc)
      || existsb (fun teamID => existsb (Z.eqb teamID) (RC_Teams rc)) userTeamIDs
  end.

(** The access decision as the specification words it, with the
    administrator disjunct; compared with [canUserAccessResource] below. *)
Definition allowed
    (isAdmin : bool) (userID : UserID) (groups : list TeamID)
    (control : option ResourceControl) : Prop :=
  control = None
  ∨ isAdmin = true
  ∨ (∃ rc, control = Some rc ∧ userID ∈ RC_Users rc)
  ∨ (∃ rc g, control = Some rc ∧ g ∈ groups ∧ g ∈ RC_Teams rc).

Definition idsValue (ids : list Z) : value := VArray (VNumber <$> ids).

(** Field under which the ownership metadata is stored in a document. *)
Definition ownershipField : string := "Portainer".

(** Modelled from the spec: [decorateObject], whose body is not part of the
    sources. "Keep document, with ownership metadata (owning users/groups)
    merged into it": the metadata block is stored under one field of the
    object, replacing an earlier block. *)
Definition decorateObject
    (object : gmap string value) (resourceControl : ResourceControl)
  : gmap string value :=
  <[ ownershipField :=
       VObject (<[ "Users" := idsValue (RC_Users resourceControl) ]>
               (<[ "Teams" := idsValue (RC_Teams resourceControl) ]> ∅)) ]>
  object.

(** Modelled from the spec: the identifier constants, not part of the
    sources. "A name-like field for volumes, an id-like field for
    containers/services"; the names are those of the Docker API v1.28 list
    formats that [filter.go] refers to. *)
Definition volumeIdentifier : string := "Name".
Definition containerIdentifier : string := "Id".
Definition serviceIdentifier : string := "ID".

(** ** [filter.go] *)

(** [filterVolumeList], [filterContainerList] and [filterServiceList] have
    the same body up to the identifier constant and the error value; the body
    is embedded once, over these two. *)
Section ListFilter.

Variable identifier : string.
Variable errIdentifierNotFound : error.
Variable resourceControls : list ResourceControl.
Variable userID : UserID.
Variable userTeamIDs : list TeamID.

(** The [for _, volume := range volumeData] loop; [filtered] is
    [filteredVolumeData]. *)
Fixpoint filterLoop (data : list value) (filtered : list value)
  : result (list value) :=
  match data with
  | [] => Returns filtered
  | volume :: rest =>
      match volume with
      | VObject volumeObject =>            (* volume.(map[string]interface{}) *)
          match volumeObject !! identifier with
          | None | Some VNil =>            (* volumeObject[identifier] == nil *)
              Fails errIdentifierNotFound
          | Some (VString volumeID) =>     (* volumeObject[identifier].(string) *)
              match getResourceControlByResourceID volumeID resourceControls with
              | None =>
                  filterLoop rest (filtered ++ [VObject volumeObject])
              | Some resourceControl =>
                  if canUserAccessResource userID userTeamIDs (Some resourceControl)
                  then filterLoop rest
                         (filtered ++ [VObject (decorateObject volumeObject resourceControl)])
                  else filterLoop rest filtered
              end
          | Some _ => Panics
          end
      | _ => Panics
      end
  end.

(** [filteredVolumeData := make([]interface{}, 0)], then the loop. *)
Definition filterList (data : list value) : result (list value) :=
  filterLoop data [].

End ListFilter.

Definition filterVolumeList
    (volumeData : list value) (resourceControls : list ResourceControl)
    (userID : UserID) (userTeamIDs : list TeamID) : result (list value) :=
  filterList volumeIdentifier ErrDockerVolumeIdentifierNotFound
    resourceControls userID userTeamIDs volumeData.

Definition filterContainerList
    (containerData : list value) (resourceControls : list ResourceControl)
    (userID : UserID) (userTeamIDs : list TeamID) : result (list value) :=
  filterList containerIdentifier ErrDockerContainerIdentifierNotFound
    resourceControls userID userTeamIDs containerData.

Definition filterServiceList
    (serviceData : list value) (resourceControls : list ResourceControl)
    (userID : UserID) (userTeamIDs : list TeamID) : result (list value) :=
  filterList serviceIdentifier ErrDockerServiceIdentifierNotFound
    resourceControls userID userTeamIDs serviceData.

(** ** [transport.go] *)

(** The parts of [*http.Request] that the transport reads: the method, the
    URL path, and the authentication context attached by the middleware. *)
Record Request := {
  Method : string;
  URLPath : string;
  TokenContext : option TokenData
}.

Record Response := {
  StatusCode : Z;
  Body : string
}.

(** A Go call returning [(A, error)], without panics. *)
Inductive fallible (A : Type) : Type :=
  | Success (a : A)
  | Failure (e : error).
Arguments Success {A} a.
Arguments Failure {A} e.

(** The pair of a response pointer and an error that [RoundTrip] returns. *)
Definition Reply : Type := option Response * option error.

Definition reply (r : fallible Response) : Reply :=
  match r with
  | Success response => (Some response, None)
  | Failure err => (None, Some err)
  end.

(** State monad over the requests that the engine has served so far. *)
Definition Proxy (A : Type) : Type := list Request → A * list Request.

#[export] Instance Proxy_ret : MRet Proxy :=
  fun A (a : A) served => (a, served).

#[export] Instance Proxy_bind : MBind Proxy :=
  fun A B (k : A → Proxy B) (m : Proxy A) served =>
    let '(a, served') := m served in k a served'.

Definition ret {A} (a : A) : Proxy A := mret a.

(** [proxyTransport]: the engine transport and the two data services. The
    engine may answer a request differently depending on what it has already
    served; by the contract of [http.RoundTripper] it yields either a
    response or an error. *)
Record proxyTransport := {
  dockerTransport : list Request → Request → fallible Response;
  ResourceControlService : ResourceControlType → fallible (list ResourceControl);
  TeamService : UserID → fallible (list Team)
}.

Record restrictedOperationContext := {
  isAdmin : bool;
  userID : UserID;
  userTeamIDs : list TeamID;
  resourceControls : list ResourceControl
}.

(** [restrictedOperationRequest]: the callback reads the operation context
    and rewrites the response in place; the rewritten response is returned
    next to the error. The embedding covers callbacks that return and leave
    the request as it is; a callback that panics, or that writes to the
    request, is outside it. *)
Definition restrictedOperationRequest : Type :=
  Request → Response → restrictedOperationContext → Response * option error.

(** Modelled from the spec: [context.GetTokenData], not part of the sources.
    "Given a request, returns (identity id, role) or fails if no valid
    authentication context is present." *)
Definition GetTokenData (request : Request) : fallible TokenData :=
  match TokenContext request with
  | Some tokenData => Success tokenData
  | None => Failure ErrMissingContextData
  end.

Definition StatusForbidden : Z := 403.

(** Modelled from the spec: [writeAccessDeniedResponse], not part of the
    sources. "A fixed-status (forbidden) synthetic response with no engine
    round-trip"; "not an error; a deliberate, successful forbidden
    response". *)
Definition writeAccessDeniedResponse : Proxy Reply :=
  ret (Some {| StatusCode := StatusForbidden; Body := "Access denied to resource" |}, None).

(** [path.Base] of the Go standard library. *)
Fixpoint dropSlashes (l : list ascii) : list ascii :=
  match l with
  | c :: l' => if Ascii.eqb c "/" then dropSlashes l' else l
  | [] => []
  end.

Fixpoint untilSlash (l : list ascii) : list ascii :=
  match l with
  | c :: l' => if Ascii.eqb c "/" then [] else c :: untilSlash l'
  | [] => []
  end.

Definition path_Base (path : string) : string :=
  if String.eqb path "" then "."
  else
    (* strip trailing slashes, then keep what follows the last slash *)
    let stripped := dropSlashes (rev (String.list_ascii_of_string path)) in
    let base := String.string_of_list_ascii (rev (untilSlash stripped)) in
    if String.eqb base "" then "/" else base.

Definition MethodGet : string := "GET".
Definition MethodDelete : string := "DELETE".

Definition executeDockerRequest (p : proxyTransport) (request : Request)
  : Proxy Reply :=
  fun served => (reply (dockerTransport p served request), served ++ [request]).

(** [restrictedOperation] ensures that the current user has the required
    authorizations before executing the original request. *)
Definition restrictedOperation
    (p : proxyTransport) (request : Request) (resourceID : string)
  : Proxy Reply :=
  match GetTokenData request with
  | Failure err => ret (None, Some err)
  | Success tokenData =>
      if negb (TokenData_Role tokenData =? AdministratorRole)%Z then
        match TeamService p (TokenData_ID tokenData) with
        | Failure err => ret (None, Some err)
        | Success userTeams =>
            let userTeamIDs := Team_ID <$> userTeams in
            match ResourceControlService p VolumeResourceControl with
            | Failure err => ret (None, Some err)
            | Success volumeResourceControls =>
                let volumeResourceControl :=
                  getResourceControlByResourceID resourceID volumeResourceControls in
                if negb (canUserAccessResource (TokenData_ID tokenData)
                           userTeamIDs volumeResourceControl)
                then writeAccessDeniedResponse
                else executeDockerRequest p request
            end
        end
      else executeDockerRequest p request
  end.

(** [rewriteOperation] creates a new operation context with data that is used
    to decorate the original request's response. *)
Definition rewriteOperation
    (p : proxyTransport) (request : Request)
    (operation : restrictedOperationRequest) : Proxy Reply :=
  match GetTokenData request with
  | Failure err => ret (None, Some err)
  | Success tokenData =>
      match ResourceControlService p VolumeResourceControl with
      | Failure err => ret (None, Some err)
      | Success volumeResourceControls =>
          let operationContext := {|
            isAdmin := true;
            userID := TokenData_ID tokenData;
            userTeamIDs := [];
            resourceControls := volumeResourceControls |} in
          let execute (operationContext : restrictedOperationContext) : Proxy Reply :=
            r ← executeDockerRequest p request;
            match r with
            | (Some response, None) =>
                let '(response', err) := operation request response operationContext in
                ret (Some response', err)
            | _ => ret r           (* err != nil: return response, err *)
            end in
          if negb (TokenData_Role tokenData =? AdministratorRole)%Z then
            match TeamService p (TokenData_ID tokenData) with
            | Failure err => ret (None, Some err)
            | Success userTeams =>
                execute {|
                  isAdmin := false;
                  userID := userID operationContext;
                  userTeamIDs := Team_ID <$> userTeams;
                  resourceControls := resourceControls operationContext |}
            end
          else execute operationContext
      end
  end.

(** [administratorOperation] ensures that the user has administrator
    privileges before executing the original request. *)
Definition administratorOperation (p : proxyTransport) (request : Request)
  : Proxy Reply :=
  match GetTokenData request with
  | Failure err => ret (None, Some err)
  | Success tokenData =>
      if negb (TokenData_Role tokenData =? AdministratorRole)%Z
      then writeAccessDeniedResponse
      else executeDockerRequest p request
  end.

Section Dispatch.

(** The two rewrite callbacks are named by [proxyVolumeRequest]; their
    bodies are not part of the sources. *)
Variable volumeListOperation : restrictedOperationRequest.
Variable volumeInspectOperation : restrictedOperationRequest.

Definition proxyContainerRequest (p : proxyTransport) (request : Request)
  : Proxy Reply :=
  executeDockerRequest p request.

Definition proxyServiceRequest (p : proxyTransport) (request : Request)
  : Proxy Reply :=
  executeDockerRequest p request.

(** In the [default] case the results of [rewriteOperation] and of
    [restrictedOperation] are dropped (the calls are statements, not
    [return]s), and control reaches the [return] after the [switch]. *)
Definition proxyVolumeRequest (p : proxyTransport) (request : Request)
  : Proxy Reply :=
  let requestPath := URLPath request in
  if String.eqb requestPath "/volumes/create" then
    executeDockerRequest p request
  else if String.eqb requestPath "/volumes/prune" then
    administratorOperation p request
  else if String.eqb requestPath "/volumes" then
    rewriteOperation p request volumeListOperation
  else
    (* assume /volumes/{name} *)
    (if String.eqb (Method request) MethodGet
     then rewriteOperation p request volumeInspectOperation;; ret tt
     else ret tt);;
    let volumeID := path_Base requestPath in
    restrictedOperation p request volumeID;;
    executeDockerRequest p request.

Definition proxyDockerRequest (p : proxyTransport) (request : Request)
  : Proxy Reply :=
  let path := URLPath request in
  if String.prefix "/containers" path then proxyContainerRequest p request
  else if String.prefix "/services" path then proxyServiceRequest p request
  else if String.prefix "/volumes" path then proxyVolumeRequest p request
  else executeDockerRequest p request.

Definition RoundTrip (p : proxyTransport) (request : Request) : Proxy Reply :=
  proxyDockerRequest p request.

End Dispatch.

Example path_Base_volume : path_Base "/volumes/v2" = "v2".
Proof. reflexivity. Qed.

Example path_Base_trailing : path_Base "/volumes/v2//" = "v2".
Proof. reflexivity. Qed.

Example path_Base_root : path_Base "///" = "/".
Proof. reflexivity. Qed.

(** ** Reading the list filter one document at a time *)

#[global] Arguments canUserAccessResource : simpl never.
#[global] Arguments getResourceControlByResourceID : simpl never.
#[global] Arguments decorateObject : simpl never.

(** A well-formed document: a JSON object whose identifier is a string. *)
Definition isDocument (identifier : string) (d : value) : bool :=
  match d with
  | VObject m => match m !! identifier with Some (VString _) => true | _ => false end
  | _ => false
  end.

(** The identifier field of an object is absent, or holds [nil]. *)
Definition lacksIdentifier (identifier : string) (m : gmap string value) : bool :=
  match m !! identifier with None | Some VNil => true | Some _ => false end.

(** What one iteration of the loop does with its document. *)
Inductive verdict :=
  | Kept (v : value)
  | Dropped
  | Missing
  | Crashed.

Section Visit.

Variable identifier : string.
Variable errIdentifierNotFound : error.
Variable resourceControls : list ResourceControl.
Variable userID : UserID.
Variable userTeamIDs : list TeamID.

Definition visit (volume : value) : verdict :=
  match volume with
  | VObject volumeObject =>
      match volumeObject !! identifier with
      | None | Some VNil => Missing
      | Some (VString volumeID) =>
          match getResourceControlByResourceID volumeID resourceControls with
          | None => Kept volume
          | Some resourceControl =>
              if canUserAccessResource userID userTeamIDs (Some resourceControl)
              then Kept (VObject (decorateObject volumeObject resourceControl))
              else Dropped
          end
      | Some _ => Crashed
      end
  | _ => Crashed
  end.

(** The document as an authorised caller sees it: decorated when a control
    record matches its identifier, unchanged otherwise. *)
Definition decorated (volume : value) : value :=
  match volume with
  | VObject volumeObject =>
      match volumeObject !! identifier with
      | Some (VString volumeID) =>
          match getResourceControlByResourceID volumeID resourceControls with
          | Some resourceControl => VObject (decorateObject volumeObject resourceControl)
          | None => volume
          end
      | _ => volume
      end
  | _ => volume
  end.

(** The control records matching the documents of a list all authorise
    the caller. *)
Definition authorisedForAll (data : list value) : Prop :=
  ∀ m volumeID rc,
    VObject m ∈ data →
    m !! identifier = Some (VString volumeID) →
    getResourceControlByResourceID volumeID resourceControls = Some rc →
    canUserAccessResource userID userTeamIDs (Some rc) = true.

Abbreviation loop := (filterLoop identifier errIdentifierNotFound
                    resourceControls userID userTeamIDs).
Abbreviation filter := (filterList identifier errIdentifierNotFound
                      resourceControls userID userTeamIDs).

Lemma filterLoop_acc (data filtered : list value) :
  loop data filtered =
  match loop data [] with
  | Returns l => Returns (filtered ++ l)
  | Fails e => Fails e
  | Panics => Panics
  end.
Proof.
  revert filtered. induction data as [|volume rest IH]; intros filtered; simpl.
  - by rewrite app_nil_r.
  - destruct volume as [| | | | |m]; try done.
    destruct (m !! identifier) as [[| | |volumeID| |]|]; try done.
    destruct (getResourceControlByResourceID _ _) as [rc|].
    + destruct (canUserAccessResource _ _ _); [|apply IH].
      rewrite (IH (filtered ++ _)), (IH [_]).
      destruct (loop rest []); simpl; try done. by rewrite <- app_assoc.
    + rewrite (IH (filtered ++ _)), (IH [_]).
      destruct (loop rest []); simpl; try done. by rewrite <- app_assoc.
Qed.

Lemma filterList_nil : filter [] = Returns [].
Proof. reflexivity. Qed.

Lemma filterList_cons (volume : value) (rest : list value) :
  filter (volume :: rest) =
  match visit volume with
  | Crashed => Panics
  | Missing => Fails errIdentifierNotFound
  | Dropped => filter rest
  | Kept v =>
      match filter rest with
      | Returns l => Returns (v :: l)
      | Fails e => Fails e
      | Panics => Panics
      end
  end.
Proof.
  unfold filterList, visit; simpl.
  destruct volume as [| | | | |m]; try done.
  destruct (m !! identifier) as [[| | |volumeID| |]|]; try done.
  destruct (getResourceControlByResourceID _ _) as [rc|].
  - destruct (canUserAccessResource _ _ _); [|done].
    by rewrite filterLoop_acc.
  - by rewrite filterLoop_acc.
Qed.

Lemma visit_isDocument (volume : value) :
  isDocument identifier volume = true →
  visit volume = Dropped ∨ ∃ v, visit volume = Kept v.
Proof.
  unfold isDocument, visit. destruct volume as [| | | | |m]; try done.
  destruct (m !! identifier) as [[| | |volumeID| |]|]; try done. intros _.
  destruct (getResourceControlByResourceID _ _) as [rc|]; [|eauto].
  destruct (canUserAccessResource _ _ _); eauto.
Qed.

Lemma visit_Missing (volume : value) :
  visit volume = Missing ↔
  ∃ m, volume = VObject m ∧ lacksIdentifier identifier m = true.
Proof.
  unfold visit, lacksIdentifier. split.
  - destruct volume as [| | | | |m]; try done. intros H. exists m. split; [done|].
    destruct (m !! identifier) as [[| | |volumeID| |]|]; try done.
    destruct (getResourceControlByResourceID _ _) as [rc|]; [|done].
    by destruct (canUserAccessResource _ _ _).
  - intros (m & -> & H).
    by destruct (m !! identifier) as [[| | |volumeID| |]|].
Qed.

Lemma visit_Kept (volume v : value) :
  visit volume = Kept v →
  v = volume ∨ ∃ m rc, volume = VObject m ∧ v = VObject (decorateObject m rc).
Proof.
  unfold visit. destruct volume as [| | | | |m]; try done.
  destruct (m !! identifier) as [[| | |volumeID| |]|]; try done.
  destruct (getResourceControlByResourceID _ _) as [rc|].
  - destruct (canUserAccessResource _ _ _); [|done].
    intros [= <-]. right. eauto.
  - intros [= <-]. by left.
Qed.

(** The filter succeeds on every list of well-formed documents. *)
Lemma filterList_total (data : list value) :
  Forall (λ d, isDocument identifier d = true) data →
  ∃ out, filter data = Returns out.
Proof.
  induction 1 as [|volume rest Hd _ [out IH]].
  - by exists [].
  - rewrite filterList_cons, IH.
    destruct (visit_isDocument _ Hd) as [->|[v ->]]; eauto.
Qed.

(** A returned list is the image, document by document, of a subsequence
    of the input. *)
Lemma filterList_sublist (data out : list value) :
  filter data = Returns out →
  ∃ kept, kept `sublist_of` data ∧ Forall2 (λ d o, visit d = Kept o) kept out.
Proof.
  revert out. induction data as [|volume rest IH]; intros out.
  - intros [= <-]. exists []. by split.
  - rewrite filterList_cons. destruct (visit volume) as [v| | |] eqn:Hv; try done.
    + destruct (filter rest) as [l| |]; try done. intros [= <-].
      destruct (IH l eq_refl) as (kept & Hsub & Hall).
      exists (volume :: kept). split; [by apply sublist_skip|].
      by constructor.
    + intros H. destruct (IH out H) as (kept & Hsub & Hall).
      exists kept. split; [by apply sublist_cons|done].
Qed.

(** A public document of the input is in every returned list, as it was. *)
Lemma filterList_public (data out : list value) m volumeID :
  VObject m ∈ data →
  m !! identifier = Some (VString volumeID) →
  getResourceControlByResourceID volumeID resourceControls = None →
  filter data = Returns out →
  VObject m ∈ out.
Proof.
  intros Hin Hid Hrc. revert out.
  induction data as [|volume rest IH]; intros out; [by apply elem_of_nil in Hin|].
  rewrite filterList_cons. apply elem_of_cons in Hin as [<-|Hin].
  - unfold visit. rewrite Hid, Hrc.
    destruct (filter rest) as [l| |]; try done. intros [= <-]. by left.
  - destruct (visit volume) as [v| | |]; try done.
    + destruct (filter rest) as [l| |]; try done. intros [= <-].
      right. by apply IH.
    + by apply IH.
Qed.

(** A document without identifier anywhere in the list: no list comes
    back. *)
Lemma filterList_missing_no_list (data : list value) m :
  VObject m ∈ data →
  lacksIdentifier identifier m = true →
  ∀ out, filter data ≠ Returns out.
Proof.
  intros Hin Hm.
  induction data as [|volume rest IH]; intros out; [by apply elem_of_nil in Hin|].
  rewrite filterList_cons. apply elem_of_cons in Hin as [<-|Hin].
  - by rewrite (proj2 (visit_Missing _) (ex_intro _ m (conj eq_refl Hm))).
  - destruct (visit volume) as [v| | |]; try done.
    + specialize (IH Hin). destruct (filter rest) as [l| |]; try done.
      by destruct (IH l).
    + by apply IH.
Qed.

(** ... and the identifier-not-found error when the documents before it
    are well formed. *)
Lemma filterList_missing_error (before after : list value) m :
  Forall (λ d, isDocument identifier d = true) before →
  lacksIdentifier identifier m = true →
  filter (before ++ VObject m :: after) = Fails errIdentifierNotFound.
Proof.
  intros Hbefore Hm. induction Hbefore as [|volume rest Hd _ IH]; simpl.
  - rewrite filterList_cons.
    by rewrite (proj2 (visit_Missing _) (ex_intro _ m (conj eq_refl Hm))).
  - rewrite filterList_cons, IH.
    by destruct (visit_isDocument _ Hd) as [->|[v ->]].
Qed.

(** A document that is neither an object with a string identifier nor an
    object without identifier makes the filter panic when it is reached. *)
Lemma filterList_crash (volume : value) (rest : list value) :
  visit volume = Crashed → filter (volume :: rest) = Panics.
Proof. intros H. by rewrite filterList_cons, H. Qed.

(** When every matching record authorises the caller, nothing is
    dropped. *)
Lemma filterList_authorised (data : list value) :
  Forall (λ d, isDocument identifier d = true) data →
  authorisedForAll data →
  filter data = Returns (decorated <$> data).
Proof.
  induction 1 as [|volume rest Hd _ IH]; intros Hauth; [done|].
  rewrite filterList_cons, IH; cycle 1.
  { intros m volumeID rc Hin. apply Hauth. by right. }
  rewrite fmap_cons. f_equal.
  unfold isDocument in Hd. unfold visit, decorated.
  destruct volume as [| | | | |m]; try done.
  destruct (m !! identifier) as [[| | |volumeID| |]|] eqn:Hid; try done.
  destruct (getResourceControlByResourceID _ _) as [rc|] eqn:Hrc; [|done].
  rewrite (Hauth m volumeID rc); [done|by left|done|done].
Qed.

End Visit.

(** ** Filtering twice *)

Section Idempotence.

Variable identifier : string.
Variable errIdentifierNotFound : error.
Variable resourceControls : list ResourceControl.
Variable userID : UserID.
Variable userTeamIDs : list TeamID.

(** Decoration writes a field other than the identifier. *)
Hypothesis identifier_not_ownership : identifier ≠ ownershipField.

Abbreviation visit' := (visit identifier resourceControls userID userTeamIDs).
Abbreviation filter' := (filterList identifier errIdentifierNotFound
                           resourceControls userID userTeamIDs).

Lemma decorateObject_identifier m rc :
  decorateObject m rc !! identifier = m !! identifier.
Proof. unfold decorateObject. by rewrite lookup_insert_ne. Qed.

Lemma decorateObject_twice m rc :
  decorateObject (decorateObject m rc) rc = decorateObject m rc.
Proof. unfold decorateObject. by rewrite insert_insert_eq. Qed.

Lemma visit_Kept_again (volume v : value) :
  visit' volume = Kept v → visit' v = Kept v.
Proof.
  unfold visit. destruct volume as [| | | | |m]; try done.
  destruct (m !! identifier) as [[| | |volumeID| |]|] eqn:Hid; try done.
  destruct (getResourceControlByResourceID _ _) as [rc|] eqn:Hrc.
  - destruct (canUserAccessResource _ _ _) eqn:Hcan; [|done].
    intros [= <-].
    by rewrite decorateObject_identifier, Hid, Hrc, Hcan, decorateObject_twice.
  - intros [= <-]. by rewrite Hid, Hrc.
Qed.

Lemma filterList_idempotent (data out : list value) :
  filter' data = Returns out → filter' out = Returns out.
Proof.
  revert out. induction data as [|volume rest IH]; intros out.
  - by intros [= <-].
  - rewrite filterList_cons.
    destruct (visit' volume) as [v| | |] eqn:Hv; try done; [|apply IH].
    destruct (filter' rest) as [l| |]; try done. intros [= <-].
    by rewrite filterList_cons, (visit_Kept_again _ _ Hv), (IH l eq_refl).
Qed.

End Idempotence.

(** ** The access decision *)

Lemma existsb_eqb_elem_of (x : Z) (l : list Z) :
  existsb (Z.eqb x) l = true ↔ x ∈ l.
Proof.
  rewrite existsb_exists. split.
  - intros (y & Hin & Heq). apply Z.eqb_eq in Heq as <-. by apply list_elem_of_In.
  - intros Hin. exists x. split; [by apply list_elem_of_In|apply Z.eqb_refl].
Qed.

(** [canUserAccessResource] is the access decision of the specification for
    a caller who is not an administrator. *)
Lemma canUserAccessResource_allowed userID userTeamIDs resourceControl :
  canUserAccessResource userID userTeamIDs resourceControl = true
  ↔ allowed false userID userTeamIDs resourceControl.
Proof.
  unfold canUserAccessResource, allowed. destruct resourceControl as [rc|].
  - rewrite orb_true_iff, existsb_eqb_elem_of, existsb_exists. split.
    + intros [Hu|(g & Hg & Ht)].
      * right; right; left. eauto.
      * right; right; right. exists rc, g.
        apply existsb_eqb_elem_of in Ht. by rewrite list_elem_of_In.
    + intros [?|[?|[(rc' & [= <-] & Hu)|(rc' & g & [= <-] & Hg & Ht)]]]; try done.
      * by left.
      * right. exists g. by rewrite <- list_elem_of_In, existsb_eqb_elem_of.
  - split; [by left|done].
Qed.


Lemma getResourceControlByResourceID_Some resourceID rcs rc :
  getResourceControlByResourceID resourceID rcs = Some rc →
  rc ∈ rcs ∧ RC_ResourceID rc = resourceID.
Proof.
  unfold getResourceControlByResourceID. intros H.
  apply find_some in H as [Hin Heq]. split; [by apply list_elem_of_In|].
  symmetry. by apply String.eqb_eq.
Qed.

Lemma getResourceControlByResourceID_None resourceID rcs :
  getResourceControlByResourceID resourceID rcs = None ↔
  ∀ rc, rc ∈ rcs → RC_ResourceID rc ≠ resourceID.
Proof.
  unfold getResourceControlByResourceID. split.
  - intros H rc Hin Heq. apply list_elem_of_In in Hin.
    pose proof (find_none _ _ H rc Hin) as Hne. simpl in Hne.
    apply String.eqb_neq in Hne. by apply Hne.
  - intros H. induction rcs as [|rc rcs IH]; [done|]. simpl.
    destruct (String.eqb resourceID (RC_ResourceID rc)) eqn:Heq.
    + apply String.eqb_eq in Heq. destruct (H rc); [by left|done].
    + apply IH. intros rc' Hin. apply H. by right.
Qed.

(** ** Sample data: the scenarios of the specification *)

Module Sample.

#[local] Open Scope Z_scope.

Definition v1 : value := VObject {[ "Name" := VString "v1" ]}.
Definition v2map : gmap string value := {[ "Name" := VString "v2" ]}.
Definition v2 : value := VObject v2map.

Definition control (users : list UserID) (teams : list TeamID) : ResourceControl :=
  {| RC_OwnerID := 0; RC_AccessLevel := 0; RC_ID := 1;
     RC_ResourceID := "v2"; RC_Users := users; RC_Teams := teams |}.

(** A standard user, member of team 1 only, and an administrator. *)
Definition standardUser : TokenData :=
  {| TokenData_ID := 2; TokenData_Username := "user";
     TokenData_Role := StandardUserRole |}.
Definition administrator : TokenData :=
  {| TokenData_ID := 1; TokenData_Username := "admin";
     TokenData_Role := AdministratorRole |}.

(** Malformed payloads: a number where a document is expected, and a
    document whose identifier is a number. *)
Definition numericName : value := VObject {[ "Name" := VNumber 5 ]}.
Definition nameless : value := VObject {[ "Driver" := VString "local" ]}.

End Sample.

(** Scenario: v1 public, v2 restricted to team 2, caller in team 1. *)
Example filterVolumeList_scenario_denied :
  filterVolumeList [Sample.v1; Sample.v2] [Sample.control [] [2%Z]] 2%Z [1%Z]
  = Returns [Sample.v1].
Proof. reflexivity. Qed.

(** Scenario: v2 restricted to team 1, caller in team 1. *)
Example filterVolumeList_scenario_allowed :
  filterVolumeList [Sample.v1; Sample.v2] [Sample.control [] [1%Z]] 2%Z [1%Z]
  = Returns [Sample.v1;
             VObject (decorateObject Sample.v2map (Sample.control [] [1%Z]))].
Proof. reflexivity. Qed.


(** ** Properties of [filterVolumeList] *)

Abbreviation volumeDocument := (isDocument volumeIdentifier).
Abbreviation decoratedVolume := (decorated volumeIdentifier).

Lemma visit_Kept_decorated identifier rcs uid teams (volume v : value) :
  visit identifier rcs uid teams volume = Kept v →
  v = decorated identifier rcs volume.
Proof.
  unfold visit, decorated. destruct volume as [| | | | |m]; try done.
  destruct (m !! identifier) as [[| | |volumeID| |]|]; try done.
  destruct (getResourceControlByResourceID _ _) as [rc|].
  - destruct (canUserAccessResource _ _ _); [|done]. by intros [= <-].
  - by intros [= <-].
Qed.

Lemma volumeIdentifier_not_ownership : volumeIdentifier ≠ ownershipField.
Proof. done. Qed.

(** C3, as the code has it. A list holding a document without identifier
    never yields a filtered list, shortened or not; the result is the
    volume identifier-not-found error whenever the elements before that
    document are objects with a string identifier. *)
Theorem filterVolumeList_missing_identifier
    (volumeData : list value) (rcs : list ResourceControl)
    (uid : UserID) (teams : list TeamID) (m : gmap string value) :
  VObject m ∈ volumeData →
  lacksIdentifier volumeIdentifier m = true →
  (∀ out, filterVolumeList volumeData rcs uid teams ≠ Returns out)
  ∧ (∀ before after,
       volumeData = before ++ VObject m :: after →
       Forall (λ d, volumeDocument d = true) before →
       filterVolumeList volumeData rcs uid teams
       = Fails ErrDockerVolumeIdentifierNotFound).
Proof.
  intros Hin Hm. split.
  - by apply (filterList_missing_no_list _ _ _ _ _ _ m).
  - intros before after -> Hbefore. by apply filterList_missing_error.
Qed.

Lemma filterVolumeList_missing_identifier_witness :
  (∀ out, filterVolumeList [Sample.v1; Sample.nameless; Sample.v2] [] 2%Z [] ≠ Returns out)
  ∧ filterVolumeList [Sample.v1; Sample.nameless; Sample.v2] [] 2%Z []
    = Fails ErrDockerVolumeIdentifierNotFound.
Proof.
  destruct (filterVolumeList_missing_identifier
              [Sample.v1; Sample.nameless; Sample.v2] [] 2%Z []
              {[ "Driver" := VString "local" ]}) as [Hno Herr].
  - apply elem_of_cons; right. apply elem_of_cons; by left.
  - reflexivity.
  - split; [exact Hno|].
    apply (Herr [Sample.v1] [Sample.v2]); [reflexivity|].
    by repeat constructor.
Defined.

(** C3 as stated fails when a malformed element precedes the document
    without identifier: the type assertion panics first. *)
Lemma filterVolumeList_malformed_before_missing :
  Sample.nameless ∈ [Sample.numericName; Sample.nameless]
  ∧ lacksIdentifier volumeIdentifier {[ "Driver" := VString "local" ]} = true
  ∧ filterVolumeList [Sample.numericName; Sample.nameless] [] 2%Z [] = Panics
  ∧ filterVolumeList [Sample.numericName; Sample.nameless] [] 2%Z []
    ≠ Fails ErrDockerVolumeIdentifierNotFound.
Proof.
  split; [apply elem_of_cons; right; apply elem_of_cons; by left|].
  by repeat split.
Qed.

(** The container and service filters report their own errors. *)
Lemma filterContainerList_missing_identifier before after rcs uid teams m :
  Forall (λ d, isDocument containerIdentifier d = true) before →
  lacksIdentifier containerIdentifier m = true →
  filterContainerList (before ++ VObject m :: after) rcs uid teams
  = Fails ErrDockerContainerIdentifierNotFound.
Proof. apply filterList_missing_error. Qed.

Lemma filterServiceList_missing_identifier before after rcs uid teams m :
  Forall (λ d, isDocument serviceIdentifier d = true) before →
  lacksIdentifier serviceIdentifier m = true →
  filterServiceList (before ++ VObject m :: after) rcs uid teams
  = Fails ErrDockerServiceIdentifierNotFound.
Proof. apply filterList_missing_error. Qed.

(** X25. The filter takes the caller's id and teams, not the role. For
    well-formed documents whose matching control records all authorise the
    caller, the output is the whole input list in order, each document with
    a matching record decorated and the others unchanged. *)
Theorem filterVolumeList_authorised_full_list
    (volumeData : list value) (rcs : list ResourceControl)
    (uid : UserID) (teams : list TeamID) :
  Forall (λ d, volumeDocument d = true) volumeData →
  authorisedForAll volumeIdentifier rcs uid teams volumeData →
  filterVolumeList volumeData rcs uid teams
  = Returns (decoratedVolume rcs <$> volumeData).
Proof. apply filterList_authorised. Qed.

Lemma filterVolumeList_authorised_full_list_witness :
  filterVolumeList [Sample.v1; Sample.v2] [Sample.control [] [1%Z]] 2%Z [1%Z]
  = Returns (decoratedVolume [Sample.control [] [1%Z]] <$> [Sample.v1; Sample.v2]).
Proof.
  apply filterVolumeList_authorised_full_list.
  - by repeat constructor.
  - intros m volumeID rc Hin Hid Hrc.
    apply getResourceControlByResourceID_Some in Hrc as [Hrc _].
    apply list_elem_of_singleton in Hrc as ->. reflexivity.
Defined.

(** C6. On every list of well-formed documents the filter returns a list;
    a returned list is no longer than the input and is the image, in order,
    of a subsequence of the input (each kept document as it was, or
    decorated). *)
Theorem filterVolumeList_length_order
    (volumeData : list value) (rcs : list ResourceControl)
    (uid : UserID) (teams : list TeamID) :
  (Forall (λ d, volumeDocument d = true) volumeData →
   ∃ out, filterVolumeList volumeData rcs uid teams = Returns out)
  ∧ (∀ out,
       filterVolumeList volumeData rcs uid teams = Returns out →
       length out ≤ length volumeData
       ∧ ∃ kept, kept `sublist_of` volumeData
                 ∧ out = decoratedVolume rcs <$> kept).
Proof.
  split; [apply filterList_total|].
  intros out Hout.
  destruct (filterList_sublist _ _ _ _ _ _ _ Hout) as (kept & Hsub & Hall).
  assert (out = decoratedVolume rcs <$> kept) as ->.
  { clear Hsub Hout. induction Hall as [|d o kept out Hd _ IH]; [done|].
    rewrite fmap_cons. f_equal; [|done]. by eapply visit_Kept_decorated. }
  split; [|eauto].
  rewrite length_fmap. by apply sublist_length.
Qed.

Lemma filterVolumeList_length_order_witness :
  (∃ out, filterVolumeList [Sample.v1; Sample.v2] [Sample.control [] [2%Z]] 2%Z [1%Z]
          = Returns out)
  ∧ length [Sample.v1] ≤ length [Sample.v1; Sample.v2]
  ∧ ∃ kept, kept `sublist_of` [Sample.v1; Sample.v2]
            ∧ [Sample.v1] = decoratedVolume [Sample.control [] [2%Z]] <$> kept.
Proof.
  destruct (filterVolumeList_length_order
              [Sample.v1; Sample.v2] [Sample.control [] [2%Z]] 2%Z [1%Z])
    as [Htotal Hshape].
  split.
  - apply Htotal. by repeat constructor.
  - apply Hshape. reflexivity.
Defined.

(** C7. A document whose identifier matches no control record is in the
    returned list exactly as it was in the input, for every caller; and a
    list is returned whenever the documents are well formed. *)
Theorem filterVolumeList_public_unchanged
    (volumeData : list value) (rcs : list ResourceControl)
    (uid : UserID) (teams : list TeamID)
    (m : gmap string value) (volumeID : string) :
  VObject m ∈ volumeData →
  m !! volumeIdentifier = Some (VString volumeID) →
  (∀ rc, rc ∈ rcs → RC_ResourceID rc ≠ volumeID) →
  (∀ out, filterVolumeList volumeData rcs uid teams = Returns out → VObject m ∈ out)
  ∧ (Forall (λ d, volumeDocument d = true) volumeData →
     ∃ out, filterVolumeList volumeData rcs uid teams = Returns out
            ∧ VObject m ∈ out).
Proof.
  intros Hin Hid Hrc. apply getResourceControlByResourceID_None in Hrc.
  assert (∀ out, filterVolumeList volumeData rcs uid teams = Returns out →
                 VObject m ∈ out) as Hkept.
  { intros out. by apply (filterList_public _ _ _ _ _ _ _ m volumeID). }
  split; [done|].
  intros Hdocs. destruct (filterList_total volumeIdentifier
    ErrDockerVolumeIdentifierNotFound rcs uid teams _ Hdocs) as [out Hout].
  exists out. split; [done|]. by apply Hkept.
Qed.

Lemma filterVolumeList_public_unchanged_witness :
  ∃ out, filterVolumeList [Sample.v1; Sample.v2] [Sample.control [] [2%Z]] 2%Z [1%Z]
         = Returns out
         ∧ Sample.v1 ∈ out.
Proof.
  apply (filterVolumeList_public_unchanged
           [Sample.v1; Sample.v2] [Sample.control [] [2%Z]] 2%Z [1%Z]
           {[ "Name" := VString "v1" ]} "v1").
  - apply elem_of_cons; by left.
  - reflexivity.
  - intros rc Hrc. apply list_elem_of_singleton in Hrc as ->. discriminate.
  - by repeat constructor.
Defined.

(** C9. The filter is a function of its four inputs, and filtering a
    returned list again, for the same caller and records, returns that list:
    the same documents are kept. *)
Theorem filterVolumeList_deterministic_idempotent
    (volumeData : list value) (rcs : list ResourceControl)
    (uid : UserID) (teams : list TeamID) :
  (∀ volumeData' rcs' uid' teams',
     volumeData' = volumeData → rcs' = rcs → uid' = uid → teams' = teams →
     filterVolumeList volumeData' rcs' uid' teams'
     = filterVolumeList volumeData rcs uid teams)
  ∧ (∀ out,
       filterVolumeList volumeData rcs uid teams = Returns out →
       filterVolumeList out rcs uid teams = Returns out).
Proof.
  split.
  - by intros ???? -> -> -> ->.
  - intros out. apply filterList_idempotent, volumeIdentifier_not_ownership.
Qed.

Lemma filterVolumeList_deterministic_idempotent_witness :
  filterVolumeList
    [Sample.v1; VObject (decorateObject Sample.v2map (Sample.control [] [1%Z]))]
    [Sample.control [] [1%Z]] 2%Z [1%Z]
  = Returns
      [Sample.v1; VObject (decorateObject Sample.v2map (Sample.control [] [1%Z]))].
Proof.
  apply (proj2 (filterVolumeList_deterministic_idempotent
                  [Sample.v1; Sample.v2] [Sample.control [] [1%Z]] 2%Z [1%Z])).
  reflexivity.
Defined.

(** C10. The filter is not total: a payload with an element that is not an
    object, and one with an identifier that is not a string, make it panic,
    for every caller and every set of control records. *)
Theorem filterVolumeList_panics_on_malformed :
  (∃ volumeData,
     (∃ d, d ∈ volumeData ∧ ∀ m, d ≠ VObject m)
     ∧ ∀ rcs uid teams, filterVolumeList volumeData rcs uid teams = Panics)
  ∧ (∃ volumeData,
       (∃ m v, VObject m ∈ volumeData
               ∧ m !! volumeIdentifier = Some v
               ∧ v ≠ VNil ∧ ∀ s, v ≠ VString s)
       ∧ ∀ rcs uid teams, filterVolumeList volumeData rcs uid teams = Panics).
Proof.
  split.
  - exists [Sample.v1; VNumber 5]. split.
    + exists (VNumber 5). split; [apply elem_of_cons; right; apply elem_of_cons; by left|done].
    + intros rcs uid teams. unfold filterVolumeList.
      rewrite filterList_cons.
      assert (filterList volumeIdentifier ErrDockerVolumeIdentifierNotFound
                rcs uid teams [VNumber 5] = Panics) as -> by done.
      by destruct (visit_isDocument volumeIdentifier rcs uid teams Sample.v1 eq_refl)
        as [->|[v ->]].
  - exists [Sample.numericName]. split.
    + exists {[ "Name" := VNumber 5 ]}, (VNumber 5).
      split; [apply elem_of_cons; by left|done].
    + done.
Qed.

(** ** Properties of the transport *)

Module SampleTransport.

Import Sample.
#[local] Open Scope Z_scope.

Definition noContent : Response := {| StatusCode := 204; Body := "" |}.
Definition forbidden : Response :=
  {| StatusCode := StatusForbidden; Body := "Access denied to resource" |}.

(** An engine that answers every request with 204, next to the given
    answers of the data services. *)
Definition transport
    (controls : fallible (list ResourceControl)) (teams : fallible (list Team))
  : proxyTransport :=
  {| dockerTransport := λ _ _, Success noContent;
     ResourceControlService := λ _, controls;
     TeamService := λ _, teams |}.

Definition team1 : Team := {| Team_ID := 1; Team_Name := "G1" |}.

(** v2 is restricted to user 1 and team 7; the caller is user 2 of team 1. *)
Definition restricted : proxyTransport :=
  transport (Success [control [1%Z] [7%Z]]) (Success [team1]).

Definition deleteV2 (token : option TokenData) : Request :=
  {| Method := MethodDelete; URLPath := "/volumes/v2"; TokenContext := token |}.

Definition listVolumes (token : option TokenData) : Request :=
  {| Method := MethodGet; URLPath := "/volumes"; TokenContext := token |}.

(** A callback that leaves the response as it is. *)
Definition keepResponse : restrictedOperationRequest :=
  λ _ response _, (response, None).

End SampleTransport.

Lemma role_not_administrator (tokenData : TokenData) :
  TokenData_Role tokenData ≠ AdministratorRole →
  negb (TokenData_Role tokenData =? AdministratorRole)%Z = true.
Proof. intros H. by apply negb_true_iff, Z.eqb_neq. Qed.

Lemma role_administrator (tokenData : TokenData) :
  TokenData_Role tokenData = AdministratorRole →
  negb (TokenData_Role tokenData =? AdministratorRole)%Z = false.
Proof. intros ->. reflexivity. Qed.

(** The engine is contacted once by [executeDockerRequest], and its answer is
    the reply. *)
Lemma executeDockerRequest_run p request served :
  executeDockerRequest p request served
  = (reply (dockerTransport p served request), served ++ [request]).
Proof. reflexivity. Qed.

Lemma writeAccessDeniedResponse_run served :
  writeAccessDeniedResponse served
  = ((Some SampleTransport.forbidden, None), served).
Proof. reflexivity. Qed.

(** What [restrictedOperation] does once the caller, their teams and the
    control records are known. *)
Lemma restrictedOperation_standard p request resourceID tokenData userTeams rcs :
  GetTokenData request = Success tokenData →
  TokenData_Role tokenData ≠ AdministratorRole →
  TeamService p (TokenData_ID tokenData) = Success userTeams →
  ResourceControlService p VolumeResourceControl = Success rcs →
  restrictedOperation p request resourceID
  = if canUserAccessResource (TokenData_ID tokenData) (Team_ID <$> userTeams)
         (getResourceControlByResourceID resourceID rcs)
    then executeDockerRequest p request
    else writeAccessDeniedResponse.
Proof.
  intros Htoken Hrole Hteams Hrcs. unfold restrictedOperation.
  rewrite Htoken, (role_not_administrator _ Hrole), Hteams, Hrcs.
  by destruct (canUserAccessResource _ _ _).
Qed.

Lemma restrictedOperation_administrator p request resourceID tokenData :
  GetTokenData request = Success tokenData →
  TokenData_Role tokenData = AdministratorRole →
  restrictedOperation p request resourceID = executeDockerRequest p request.
Proof.
  intros Htoken Hrole. unfold restrictedOperation.
  by rewrite Htoken, (role_administrator _ Hrole).
Qed.

(** The context that [rewriteOperation] hands to its callback for an
    administrator: no teams are resolved. *)
Lemma rewriteOperation_administrator p request operation served tokenData rcs :
  GetTokenData request = Success tokenData →
  TokenData_Role tokenData = AdministratorRole →
  ResourceControlService p VolumeResourceControl = Success rcs →
  rewriteOperation p request operation served
  = (match dockerTransport p served request with
     | Success response =>
         let '(response', err) :=
           operation request response
             {| isAdmin := true; userID := TokenData_ID tokenData;
                userTeamIDs := []; resourceControls := rcs |} in
         (Some response', err)
     | Failure err => (None, Some err)
     end, served ++ [request]).
Proof.
  intros Htoken Hrole Hrcs. unfold rewriteOperation.
  rewrite Htoken, Hrcs, (role_administrator _ Hrole).
  unfold mbind, Proxy_bind. rewrite executeDockerRequest_run.
  destruct (dockerTransport p served request) as [response|err]; simpl; [|done].
  by destruct (operation _ _ _).
Qed.

Lemma rewriteOperation_standard p request operation served tokenData rcs userTeams :
  GetTokenData request = Success tokenData →
  TokenData_Role tokenData ≠ AdministratorRole →
  ResourceControlService p VolumeResourceControl = Success rcs →
  TeamService p (TokenData_ID tokenData) = Success userTeams →
  rewriteOperation p request operation served
  = (match dockerTransport p served request with
     | Success response =>
         let '(response', err) :=
           operation request response
             {| isAdmin := false; userID := TokenData_ID tokenData;
                userTeamIDs := Team_ID <$> userTeams; resourceControls := rcs |} in
         (Some response', err)
     | Failure err => (None, Some err)
     end, served ++ [request]).
Proof.
  intros Htoken Hrole Hrcs Hteams. unfold rewriteOperation.
  rewrite Htoken, Hrcs, (role_not_administrator _ Hrole), Hteams.
  unfold mbind, Proxy_bind. rewrite executeDockerRequest_run.
  destruct (dockerTransport p served request) as [response|err]; simpl; [|done].
  by destruct (operation _ _ _).
Qed.

(** Whatever [restrictedOperation] answered, a by-id volume request ends in
    [executeDockerRequest]: the reply is the engine's. *)
Lemma proxyVolumeRequest_by_id
    (volumeListOperation volumeInspectOperation : restrictedOperationRequest)
    p request served :
  URLPath request ≠ "/volumes/create" →
  URLPath request ≠ "/volumes/prune" →
  URLPath request ≠ "/volumes" →
  ∃ served',
    proxyVolumeRequest volumeListOperation volumeInspectOperation p request served
    = (reply (dockerTransport p served' request), served' ++ [request]).
Proof.
  intros Hcreate Hprune Hlist. unfold proxyVolumeRequest.
  apply String.eqb_neq in Hcreate, Hprune, Hlist.
  rewrite Hcreate, Hprune, Hlist.
  unfold mbind, Proxy_bind.
  destruct (String.eqb (Method request) MethodGet).
  - destruct (rewriteOperation p request volumeInspectOperation served)
      as [r0 served1]; simpl.
    destruct (restrictedOperation p request _ served1) as [r served2].
    by exists served2.
  - simpl.
    destruct (restrictedOperation p request _ served) as [r served2].
    by exists served2.
Qed.

(** C1 fails on the code. A standard user excluded by the control record of
    v2 sends DELETE /volumes/v2: [restrictedOperation] answers forbidden
    without contacting the engine, but [proxyVolumeRequest] drops that answer
    and executes the request; the caller gets the engine's response. *)
Theorem proxyVolumeRequest_delete_reaches_engine
    (volumeListOperation volumeInspectOperation : restrictedOperationRequest) :
  let request := SampleTransport.deleteV2 (Some Sample.standardUser) in
  canUserAccessResource 2%Z [1%Z]
    (getResourceControlByResourceID "v2" [Sample.control [1%Z] [7%Z]]) = false
  ∧ restrictedOperation SampleTransport.restricted request
      (path_Base (URLPath request)) []
    = ((Some SampleTransport.forbidden, None), [])
  ∧ proxyVolumeRequest volumeListOperation volumeInspectOperation
      SampleTransport.restricted request []
    = ((Some SampleTransport.noContent, None), [request]).
Proof. by repeat split. Qed.

(** C5, as the code has it. [rewriteOperation] resolves the caller, the
    control records and, for a caller who is not an administrator, the teams
    before anything else. When these lookups succeed the engine is contacted
    exactly once, whatever the callback decides later; when one of them fails
    the error is returned and the engine is not contacted. *)
Theorem rewriteOperation_engine_contact
    (p : proxyTransport) (request : Request)
    (operation : restrictedOperationRequest) (served : list Request) :
  (∀ tokenData rcs,
     GetTokenData request = Success tokenData →
     ResourceControlService p VolumeResourceControl = Success rcs →
     (TokenData_Role tokenData = AdministratorRole
      ∨ ∃ userTeams, TeamService p (TokenData_ID tokenData) = Success userTeams) →
     snd (rewriteOperation p request operation served) = served ++ [request])
  ∧ (∀ err,
       GetTokenData request = Failure err →
       rewriteOperation p request operation served = ((None, Some err), served))
  ∧ (∀ tokenData err,
       GetTokenData request = Success tokenData →
       ResourceControlService p VolumeResourceControl = Failure err →
       rewriteOperation p request operation served = ((None, Some err), served))
  ∧ (∀ tokenData rcs err,
       GetTokenData request = Success tokenData →
       ResourceControlService p VolumeResourceControl = Success rcs →
       TokenData_Role tokenData ≠ AdministratorRole →
       TeamService p (TokenData_ID tokenData) = Failure err →
       rewriteOperation p request operation served = ((None, Some err), served)).
Proof.
  repeat split.
  - intros tokenData rcs Htoken Hrcs Hteams.
    destruct (decide (TokenData_Role tokenData = AdministratorRole)) as [Hrole|Hrole].
    + by rewrite (rewriteOperation_administrator _ _ _ _ _ _ Htoken Hrole Hrcs).
    + destruct Hteams as [?|[userTeams Hteams]]; [done|].
      by rewrite (rewriteOperation_standard _ _ _ _ _ _ _ Htoken Hrole Hrcs Hteams).
  - intros err Htoken. unfold rewriteOperation. by rewrite Htoken.
  - intros tokenData err Htoken Hrcs. unfold rewriteOperation. by rewrite Htoken, Hrcs.
  - intros tokenData rcs err Htoken Hrcs Hrole Hteams. unfold rewriteOperation.
    by rewrite Htoken, Hrcs, (role_not_administrator _ Hrole), Hteams.
Qed.

Lemma rewriteOperation_engine_contact_witness :
  snd (rewriteOperation SampleTransport.restricted
         (SampleTransport.listVolumes (Some Sample.standardUser))
         SampleTransport.keepResponse [])
  = [SampleTransport.listVolumes (Some Sample.standardUser)]
  ∧ rewriteOperation SampleTransport.restricted
      (SampleTransport.listVolumes None) SampleTransport.keepResponse []
    = ((None, Some ErrMissingContextData), [])
  ∧ rewriteOperation
      (SampleTransport.transport (Failure (ErrExternal "store")) (Success []))
      (SampleTransport.listVolumes (Some Sample.standardUser))
      SampleTransport.keepResponse []
    = ((None, Some (ErrExternal "store")), [])
  ∧ rewriteOperation
      (SampleTransport.transport (Success []) (Failure (ErrExternal "teams")))
      (SampleTransport.listVolumes (Some Sample.standardUser))
      SampleTransport.keepResponse []
    = ((None, Some (ErrExternal "teams")), []).
Proof.
  split; [|split; [|split]].
  - apply (proj1 (rewriteOperation_engine_contact SampleTransport.restricted
                    (SampleTransport.listVolumes (Some Sample.standardUser))
                    SampleTransport.keepResponse [])
             Sample.standardUser [Sample.control [1%Z] [7%Z]]);
      [reflexivity|reflexivity|].
    right. exists [SampleTransport.team1]. reflexivity.
  - apply (proj1 (proj2 (rewriteOperation_engine_contact SampleTransport.restricted
                           (SampleTransport.listVolumes None)
                           SampleTransport.keepResponse []))).
    reflexivity.
  - apply (proj1 (proj2 (proj2 (rewriteOperation_engine_contact
             (SampleTransport.transport (Failure (ErrExternal "store")) (Success []))
             (SampleTransport.listVolumes (Some Sample.standardUser))
             SampleTransport.keepResponse []))) Sample.standardUser);
      reflexivity.
  - apply (proj2 (proj2 (proj2 (rewriteOperation_engine_contact
             (SampleTransport.transport (Success []) (Failure (ErrExternal "teams")))
             (SampleTransport.listVolumes (Some Sample.standardUser))
             SampleTransport.keepResponse []))) Sample.standardUser []);
      try reflexivity.
    discriminate.
Defined.

(** C5 as stated fails: without an authentication context, or when the
    control records cannot be read, [rewriteOperation] returns although the
    engine has served nothing. *)
Lemma rewriteOperation_returns_before_engine :
  rewriteOperation SampleTransport.restricted
    (SampleTransport.listVolumes None) SampleTransport.keepResponse []
  = ((None, Some ErrMissingContextData), [])
  ∧ rewriteOperation
      (SampleTransport.transport (Failure (ErrExternal "store")) (Success []))
      (SampleTransport.listVolumes (Some Sample.standardUser))
      SampleTransport.keepResponse []
    = ((None, Some (ErrExternal "store")), []).
Proof. by split. Qed.

(** C8. In [restrictedOperation] a failure to resolve the caller, the
    caller's teams or the control records ends the call with that error and
    a nil response, and the engine has served nothing more. The access-denied
    outcome is different: when the lookups succeed and the access decision
    denies, [restrictedOperation] returns a forbidden response with a nil
    error, again without contacting the engine; when the decision allows, it
    returns the engine's reply after one round trip. *)
Theorem restrictedOperation_lookup_failure_aborts
    (p : proxyTransport) (request : Request) (resourceID : string)
    (served : list Request) :
  (∀ err,
     GetTokenData request = Failure err →
     restrictedOperation p request resourceID served = ((None, Some err), served))
  ∧ (∀ tokenData err,
       GetTokenData request = Success tokenData →
       TokenData_Role tokenData ≠ AdministratorRole →
       TeamService p (TokenData_ID tokenData) = Failure err →
       restrictedOperation p request resourceID served = ((None, Some err), served))
  ∧ (∀ tokenData userTeams err,
       GetTokenData request = Success tokenData →
       TokenData_Role tokenData ≠ AdministratorRole →
       TeamService p (TokenData_ID tokenData) = Success userTeams →
       ResourceControlService p VolumeResourceControl = Failure err →
       restrictedOperation p request resourceID served = ((None, Some err), served))
  ∧ (∀ tokenData userTeams rcs,
       GetTokenData request = Success tokenData →
       TokenData_Role tokenData ≠ AdministratorRole →
       TeamService p (TokenData_ID tokenData) = Success userTeams →
       ResourceControlService p VolumeResourceControl = Success rcs →
       canUserAccessResource (TokenData_ID tokenData) (Team_ID <$> userTeams)
         (getResourceControlByResourceID resourceID rcs) = false →
       ∃ response,
         restrictedOperation p request resourceID served
         = ((Some response, None), served)
         ∧ StatusCode response = StatusForbidden
         ∧ ∀ err, restrictedOperation p request resourceID served
                  ≠ ((None, Some err), served))
  ∧ (∀ tokenData userTeams rcs,
       GetTokenData request = Success tokenData →
       TokenData_Role tokenData ≠ AdministratorRole →
       TeamService p (TokenData_ID tokenData) = Success userTeams →
       ResourceControlService p VolumeResourceControl = Success rcs →
       canUserAccessResource (TokenData_ID tokenData) (Team_ID <$> userTeams)
         (getResourceControlByResourceID resourceID rcs) = true →
       restrictedOperation p request resourceID served
       = (reply (dockerTransport p served request), served ++ [request]))
  ∧ (∃ response,
       writeAccessDeniedResponse served = ((Some response, None), served)
       ∧ StatusCode response = StatusForbidden
       ∧ ∀ err, writeAccessDeniedResponse served ≠ ((None, Some err), served)).
Proof.
  repeat split.
  - intros err Htoken. unfold restrictedOperation. by rewrite Htoken.
  - intros tokenData err Htoken Hrole Hteams. unfold restrictedOperation.
    by rewrite Htoken, (role_not_administrator _ Hrole), Hteams.
  - intros tokenData userTeams err Htoken Hrole Hteams Hrcs.
    unfold restrictedOperation.
    by rewrite Htoken, (role_not_administrator _ Hrole), Hteams, Hrcs.
  - intros tokenData userTeams rcs Htoken Hrole Hteams Hrcs Hdenied.
    rewrite (restrictedOperation_standard _ _ _ _ _ _ Htoken Hrole Hteams Hrcs),
      Hdenied.
    exists SampleTransport.forbidden. by repeat split.
  - intros tokenData userTeams rcs Htoken Hrole Hteams Hrcs Hallowed.
    by rewrite (restrictedOperation_standard _ _ _ _ _ _ Htoken Hrole Hteams Hrcs),
      Hallowed.
  - exists SampleTransport.forbidden. by repeat split.
Qed.

Lemma restrictedOperation_lookup_failure_aborts_witness :
  restrictedOperation SampleTransport.restricted (SampleTransport.deleteV2 None) "v2" []
  = ((None, Some ErrMissingContextData), [])
  ∧ restrictedOperation
      (SampleTransport.transport (Success []) (Failure (ErrExternal "teams")))
      (SampleTransport.deleteV2 (Some Sample.standardUser)) "v2" []
    = ((None, Some (ErrExternal "teams")), [])
  ∧ restrictedOperation
      (SampleTransport.transport (Failure (ErrExternal "store")) (Success []))
      (SampleTransport.deleteV2 (Some Sample.standardUser)) "v2" []
    = ((None, Some (ErrExternal "store")), [])
  ∧ (∃ response,
       restrictedOperation SampleTransport.restricted
         (SampleTransport.deleteV2 (Some Sample.standardUser)) "v2" []
       = ((Some response, None), [])
       ∧ StatusCode response = StatusForbidden
       ∧ ∀ err, restrictedOperation SampleTransport.restricted
                  (SampleTransport.deleteV2 (Some Sample.standardUser)) "v2" []
                ≠ ((None, Some err), []))
  ∧ restrictedOperation SampleTransport.restricted
      (SampleTransport.deleteV2 (Some Sample.standardUser)) "v1" []
    = ((Some SampleTransport.noContent, None),
       [SampleTransport.deleteV2 (Some Sample.standardUser)]).
Proof.
  split; [|split; [|split; [|split]]].
  - apply (proj1 (restrictedOperation_lookup_failure_aborts
                    SampleTransport.restricted (SampleTransport.deleteV2 None) "v2" [])).
    reflexivity.
  - apply (proj1 (proj2 (restrictedOperation_lookup_failure_aborts
             (SampleTransport.transport (Success []) (Failure (ErrExternal "teams")))
             (SampleTransport.deleteV2 (Some Sample.standardUser)) "v2" []))
             Sample.standardUser); try reflexivity.
    discriminate.
  - apply (proj1 (proj2 (proj2 (restrictedOperation_lookup_failure_aborts
             (SampleTransport.transport (Failure (ErrExternal "store")) (Success []))
             (SampleTransport.deleteV2 (Some Sample.standardUser)) "v2" [])))
             Sample.standardUser []); try reflexivity.
    discriminate.
  - apply (proj1 (proj2 (proj2 (proj2 (restrictedOperation_lookup_failure_aborts
             SampleTransport.restricted
             (SampleTransport.deleteV2 (Some Sample.standardUser)) "v2" []))))
             Sample.standardUser [SampleTransport.team1]
             [Sample.control [1%Z] [7%Z]]); try reflexivity.
    discriminate.
  - apply (proj1 (proj2 (proj2 (proj2 (proj2 (restrictedOperation_lookup_failure_aborts
             SampleTransport.restricted
             (SampleTransport.deleteV2 (Some Sample.standardUser)) "v1" [])))))
             Sample.standardUser [SampleTransport.team1]
             [Sample.control [1%Z] [7%Z]]); try reflexivity.
    discriminate.
Defined.


(** * Further properties of the list filters *)

(** An element on which the type assertions of the loop fail: not an
    object, or an object whose identifier is neither nil nor a string. *)
Definition isMalformed (identifier : string) (d : value) : bool :=
  match d with
  | VObject m =>
      match m !! identifier with
      | None | Some VNil | Some (VString _) => false
      | Some _ => true
      end
  | _ => true
  end.

(** The caller may see the document: it is public, or its control record
    gives access. *)
Definition visible
    (identifier : string) (resourceControls : list ResourceControl)
    (userID : UserID) (userTeamIDs : list TeamID) (d : value) : bool :=
  match d with
  | VObject m =>
      match m !! identifier with
      | Some (VString volumeID) =>
          match getResourceControlByResourceID volumeID resourceControls with
          | None => true
          | Some rc => canUserAccessResource userID userTeamIDs (Some rc)
          end
      | _ => false
      end
  | _ => false
  end.

(** The identifier of an element, when it is an object. *)
Definition identifierOf (identifier : string) (d : value) : option (option value) :=
  match d with
  | VObject m => Some (m !! identifier)
  | _ => None
  end.

(** The shape of a result: the number of documents returned, the error, or
    the panic. *)
Definition outline (r : result (list value)) : result nat :=
  match r with
  | Returns out => Returns (length out)
  | Fails e => Fails e
  | Panics => Panics
  end.

Section FilterShape.

Variable identifier : string.
Variable errIdentifierNotFound : error.
Variable resourceControls : list ResourceControl.
Variable userID : UserID.
Variable userTeamIDs : list TeamID.

Abbreviation look := (visit identifier resourceControls userID userTeamIDs).
Abbreviation run := (filterList identifier errIdentifierNotFound
                       resourceControls userID userTeamIDs).
Abbreviation document := (isDocument identifier).
Abbreviation shown := (visible identifier resourceControls userID userTeamIDs).
Abbreviation dressed := (decorated identifier resourceControls).

Lemma visit_document (d : value) :
  document d = true →
  look d = if shown d then Kept (dressed d) else Dropped.
Proof.
  unfold isDocument, visit, visible, decorated.
  destruct d as [| | | | |m]; try done.
  destruct (m !! identifier) as [[| | |volumeID| |]|]; try done. intros _.
  destruct (getResourceControlByResourceID _ _) as [rc|]; [|done].
  by destruct (canUserAccessResource _ _ _).
Qed.

Lemma visit_Crashed (d : value) :
  look d = Crashed ↔ isMalformed identifier d = true.
Proof.
  unfold visit, isMalformed. destruct d as [| | | | |m]; try done.
  destruct (m !! identifier) as [[| | |volumeID| |]|]; try done.
  destruct (getResourceControlByResourceID _ _) as [rc|]; [|done].
  by destruct (canUserAccessResource _ _ _).
Qed.

Lemma visit_passed (d : value) :
  (look d = Dropped ∨ ∃ v, look d = Kept v) → document d = true.
Proof.
  unfold visit, isDocument. destruct d as [| | | | |m].
  1-5: by intros [?|[? ?]].
  destruct (m !! identifier) as [[| | |volumeID| |]|]; try done;
    by intros [?|[? ?]].
Qed.

(** The loop over a concatenation: the second part is filtered only when
    the first part went through, and the kept documents are appended. *)
Lemma filterList_app (a b : list value) :
  run (a ++ b) =
  match run a with
  | Returns la =>
      match run b with
      | Returns lb => Returns (la ++ lb)
      | Fails e => Fails e
      | Panics => Panics
      end
  | Fails e => Fails e
  | Panics => Panics
  end.
Proof.
  induction a as [|d a IH].
  - rewrite app_nil_l, filterList_nil. by destruct (run b).
  - rewrite <- app_comm_cons, !filterList_cons, IH.
    destruct (look d); try done.
    destruct (run a); try done. by destruct (run b).
Qed.

(** A list comes back exactly when every element is a document. *)
Lemma filterList_Returns_iff (data : list value) :
  (∃ out, run data = Returns out) ↔ Forall (λ d, document d = true) data.
Proof.
  split; [|apply filterList_total].
  induction data as [|d data IH]; [by constructor|].
  rewrite filterList_cons. intros [out Hout].
  destruct (look d) as [v| | |] eqn:Hd; try done.
  - destruct (run data) as [l| |]; try done.
    constructor; [apply visit_passed; eauto|apply IH; eauto].
  - constructor; [apply visit_passed; eauto|apply IH; eauto].
Qed.

(** On documents the loop is a filter followed by a map. *)
Lemma filterList_map_filter (data : list value) :
  Forall (λ d, document d = true) data →
  run data = Returns (dressed <$> List.filter shown data).
Proof.
  induction 1 as [|d data Hd _ IH]; [done|].
  rewrite filterList_cons, IH, (visit_document _ Hd). simpl.
  by destruct (shown d).
Qed.

(** The first element that is not a document decides how the filter
    ends. *)
Lemma filterList_first_bad (before after : list value) (d : value) :
  Forall (λ d, document d = true) before →
  document d = false →
  run (before ++ d :: after) =
  if isMalformed identifier d then Panics else Fails errIdentifierNotFound.
Proof.
  intros Hbefore Hd.
  destruct (proj2 (filterList_Returns_iff before) Hbefore) as [out Hout].
  rewrite filterList_app, Hout, filterList_cons.
  destruct (isMalformed identifier d) eqn:Hbad.
  - by rewrite (proj2 (visit_Crashed d) Hbad).
  - destruct (look d) as [v| | |] eqn:Hv.
    + rewrite (visit_passed d) in Hd; [done|eauto].
    + rewrite (visit_passed d) in Hd; [done|eauto].
    + by destruct (run after).
    + apply visit_Crashed in Hv. congruence.
Qed.

(** Every list splits at its first element that is not a document, unless
    there is none. *)
Lemma split_first_bad (data : list value) :
  Forall (λ d, document d = true) data
  ∨ ∃ before d after,
      data = before ++ d :: after
      ∧ Forall (λ d, document d = true) before
      ∧ document d = false.
Proof.
  induction data as [|d data IH]; [left; constructor|].
  destruct (document d) eqn:Hd.
  - destruct IH as [IH|(before & d' & after & -> & Hbefore & Hd')].
    + left. by constructor.
    + right. exists (d :: before), d', after. repeat split; [|done].
      by constructor.
  - right. exists [], d, data. repeat split; [constructor|done].
Qed.

Lemma filterList_Fails_iff (data : list value) (e : error) :
  run data = Fails e ↔
  e = errIdentifierNotFound
  ∧ ∃ before m after,
      data = before ++ VObject m :: after
      ∧ Forall (λ d, document d = true) before
      ∧ lacksIdentifier identifier m = true.
Proof.
  split.
  - intros Hrun.
    destruct (split_first_bad data) as [Hall|(before & d & after & -> & Hb & Hd)].
    + apply filterList_Returns_iff in Hall as [out Hout]. congruence.
    + rewrite (filterList_first_bad _ _ _ Hb Hd) in Hrun.
      destruct (isMalformed identifier d) eqn:Hbad; [done|].
      injection Hrun as <-. split; [done|].
      unfold isDocument, isMalformed in *. destruct d as [| | | | |m]; try done.
      exists before, m, after. repeat split; [done|].
      unfold lacksIdentifier.
      by destruct (m !! identifier) as [[| | |volumeID| |]|].
  - intros (-> & before & m & after & -> & Hb & Hm).
    by apply filterList_missing_error.
Qed.

Lemma filterList_Panics_iff (data : list value) :
  run data = Panics ↔
  ∃ before d after,
    data = before ++ d :: after
    ∧ Forall (λ d, document d = true) before
    ∧ isMalformed identifier d = true.
Proof.
  split.
  - intros Hrun.
    destruct (split_first_bad data) as [Hall|(before & d & after & -> & Hb & Hd)].
    + apply filterList_Returns_iff in Hall as [out Hout]. congruence.
    + rewrite (filterList_first_bad _ _ _ Hb Hd) in Hrun.
      destruct (isMalformed identifier d) eqn:Hbad; [|done].
      by exists before, d, after.
  - intros (before & d & after & -> & Hb & Hbad).
    rewrite (filterList_first_bad _ _ _ Hb), Hbad; [done|].
    unfold isMalformed, isDocument in *. destruct d as [| | | | |m]; try done.
    by destruct (m !! identifier) as [[| | |volumeID| |]|].
Qed.

(** Only the identifiers decide what is kept. *)
Lemma visit_identifierOf (d1 d2 : value) :
  identifierOf identifier d1 = identifierOf identifier d2 →
  match look d1, look d2 with
  | Kept _, Kept _ | Dropped, Dropped | Missing, Missing | Crashed, Crashed => True
  | _, _ => False
  end.
Proof.
  unfold identifierOf, visit.
  destruct d1 as [| | | | |m1], d2 as [| | | | |m2]; try done.
  intros [= ->].
  destruct (m2 !! identifier) as [[| | |volumeID| |]|]; try done.
  destruct (getResourceControlByResourceID _ _) as [rc|]; [|done].
  by destruct (canUserAccessResource _ _ _).
Qed.

Lemma filterList_identifierOf (data1 data2 : list value) :
  identifierOf identifier <$> data1 = identifierOf identifier <$> data2 →
  outline (run data1) = outline (run data2).
Proof.
  revert data2. induction data1 as [|d1 data1 IH]; intros [|d2 data2]; try done.
  rewrite !fmap_cons. intros [= Hd Hrest].
  rewrite !filterList_cons. specialize (IH _ Hrest).
  pose proof (visit_identifierOf _ _ Hd) as Hlook.
  destruct (look d1), (look d2); try done.
  destruct (run data1), (run data2); simpl in *; congruence.
Qed.

End FilterShape.

Abbreviation visibleVolume := (visible volumeIdentifier).

(** X1. Filtering a concatenation: the second part is looked at only when
    the first part went through without error or panic, and then the kept
    documents of both parts are appended in order. *)
Theorem filterVolumeList_app
    (first second : list value) (rcs : list ResourceControl)
    (uid : UserID) (teams : list TeamID) :
  filterVolumeList (first ++ second) rcs uid teams =
  match filterVolumeList first rcs uid teams with
  | Returns kept1 =>
      match filterVolumeList second rcs uid teams with
      | Returns kept2 => Returns (kept1 ++ kept2)
      | Fails e => Fails e
      | Panics => Panics
      end
  | Fails e => Fails e
  | Panics => Panics
  end.
Proof. apply filterList_app. Qed.

(** X2. [filterVolumeList] returns a list exactly when every element of its
    input is a JSON object whose identifier is a string. *)
Theorem filterVolumeList_returns_iff_documents
    (volumeData : list value) (rcs : list ResourceControl)
    (uid : UserID) (teams : list TeamID) :
  (∃ out, filterVolumeList volumeData rcs uid teams = Returns out)
  ↔ Forall (λ d, volumeDocument d = true) volumeData.
Proof. apply filterList_Returns_iff. Qed.

Lemma filterVolumeList_returns_iff_documents_witness :
  (∃ out, filterVolumeList [Sample.v1; Sample.v2] [Sample.control [] [2%Z]] 2%Z [1%Z]
          = Returns out)
  ∧ Forall (λ d, volumeDocument d = true) [Sample.v1].
Proof.
  split.
  - apply (proj2 (filterVolumeList_returns_iff_documents
                    [Sample.v1; Sample.v2] [Sample.control [] [2%Z]] 2%Z [1%Z])).
    by repeat constructor.
  - apply (proj1 (filterVolumeList_returns_iff_documents
                    [Sample.v1] [Sample.control [] [2%Z]] 2%Z [1%Z])).
    by exists [Sample.v1].
Defined.

(** X3. On a list of documents the loop of [filterVolumeList] is a filter
    followed by a map: the documents that are public or whose record gives
    access to the caller, in order, each decorated when it has a record. *)
Theorem filterVolumeList_map_filter
    (volumeData : list value) (rcs : list ResourceControl)
    (uid : UserID) (teams : list TeamID) :
  Forall (λ d, volumeDocument d = true) volumeData →
  filterVolumeList volumeData rcs uid teams
  = Returns (decoratedVolume rcs <$> List.filter (visibleVolume rcs uid teams) volumeData).
Proof. apply filterList_map_filter. Qed.

Lemma filterVolumeList_map_filter_witness :
  filterVolumeList [Sample.v1; Sample.v2] [Sample.control [] [2%Z]] 2%Z [1%Z]
  = Returns (decoratedVolume [Sample.control [] [2%Z]]
               <$> List.filter (visibleVolume [Sample.control [] [2%Z]] 2%Z [1%Z])
                     [Sample.v1; Sample.v2]).
Proof.
  apply filterVolumeList_map_filter. by repeat constructor.
Defined.

(** X4. [filterVolumeList] returns an error exactly when the first element
    that is not a document is an object without identifier, and the error is
    then [ErrDockerVolumeIdentifierNotFound]; it returns no other error. *)
Theorem filterVolumeList_fails_iff
    (volumeData : list value) (rcs : list ResourceControl)
    (uid : UserID) (teams : list TeamID) (e : error) :
  filterVolumeList volumeData rcs uid teams = Fails e ↔
  e = ErrDockerVolumeIdentifierNotFound
  ∧ ∃ before m after,
      volumeData = before ++ VObject m :: after
      ∧ Forall (λ d, volumeDocument d = true) before
      ∧ lacksIdentifier volumeIdentifier m = true.
Proof. apply filterList_Fails_iff. Qed.

Lemma filterVolumeList_fails_iff_witness :
  ErrDockerVolumeIdentifierNotFound = ErrDockerVolumeIdentifierNotFound
  ∧ ∃ before m after,
      [Sample.v1; Sample.nameless; Sample.numericName] = before ++ VObject m :: after
      ∧ Forall (λ d, volumeDocument d = true) before
      ∧ lacksIdentifier volumeIdentifier m = true.
Proof.
  apply (proj1 (filterVolumeList_fails_iff
                  [Sample.v1; Sample.nameless; Sample.numericName] [] 2%Z []
                  ErrDockerVolumeIdentifierNotFound)).
  reflexivity.
Defined.

(** X5. [filterVolumeList] panics exactly when the first element that is not
    a document is not an object, or is an object whose identifier is neither
    nil nor a string. *)
Theorem filterVolumeList_panics_iff
    (volumeData : list value) (rcs : list ResourceControl)
    (uid : UserID) (teams : list TeamID) :
  filterVolumeList volumeData rcs uid teams = Panics ↔
  ∃ before d after,
    volumeData = before ++ d :: after
    ∧ Forall (λ d, volumeDocument d = true) before
    ∧ isMalformed volumeIdentifier d = true.
Proof. apply filterList_Panics_iff. Qed.

Lemma filterVolumeList_panics_iff_witness :
  filterVolumeList [Sample.v1; VArray []; Sample.nameless] [] 2%Z [] = Panics.
Proof.
  apply (proj2 (filterVolumeList_panics_iff
                  [Sample.v1; VArray []; Sample.nameless] [] 2%Z [])).
  exists [Sample.v1], (VArray []), [Sample.nameless].
  split; [reflexivity|]. split; [by repeat constructor|reflexivity].
Defined.

(** X6. Only the identifier fields decide what [filterVolumeList] does: two
    payloads whose elements carry the same identifiers, position by
    position, both return lists of the same length, or both fail with the
    same error, or both panic. *)
Theorem filterVolumeList_identifier_only
    (volumeData1 volumeData2 : list value) (rcs : list ResourceControl)
    (uid : UserID) (teams : list TeamID) :
  identifierOf volumeIdentifier <$> volumeData1
  = identifierOf volumeIdentifier <$> volumeData2 →
  outline (filterVolumeList volumeData1 rcs uid teams)
  = outline (filterVolumeList volumeData2 rcs uid teams).
Proof. apply filterList_identifierOf. Qed.

Lemma filterVolumeList_identifier_only_witness :
  outline (filterVolumeList
             [Sample.v1; VObject (<[ "Driver" := VString "local" ]> Sample.v2map)]
             [Sample.control [] [2%Z]] 2%Z [1%Z])
  = outline (filterVolumeList [Sample.v1; Sample.v2]
               [Sample.control [] [2%Z]] 2%Z [1%Z]).
Proof.
  apply filterVolumeList_identifier_only. reflexivity.
Defined.

(** X7. When no control record carries the identifier of any document, the
    filter returns the payload as it is, for every caller. *)
Theorem filterVolumeList_all_public
    (volumeData : list value) (rcs : list ResourceControl)
    (uid : UserID) (teams : list TeamID) :
  Forall (λ d, volumeDocument d = true) volumeData →
  (∀ m volumeID rc,
     VObject m ∈ volumeData →
     m !! volumeIdentifier = Some (VString volumeID) →
     rc ∈ rcs → RC_ResourceID rc ≠ volumeID) →
  filterVolumeList volumeData rcs uid teams = Returns volumeData.
Proof.
  intros Hdocs Hpublic.
  assert (∀ m volumeID, VObject m ∈ volumeData →
            m !! volumeIdentifier = Some (VString volumeID) →
            getResourceControlByResourceID volumeID rcs = None) as Hnone.
  { intros m volumeID Hin Hid. apply getResourceControlByResourceID_None.
    intros rc. by apply (Hpublic m). }
  unfold filterVolumeList. rewrite filterList_authorised; [|done|].
  - f_equal. clear Hpublic Hdocs.
    induction volumeData as [|d data IH]; [done|].
    rewrite fmap_cons. f_equal.
    + unfold decorated. destruct d as [| | | | |m]; try done.
      destruct (m !! volumeIdentifier) as [[| | |volumeID| |]|] eqn:Hid; try done.
      rewrite (Hnone m volumeID); [done|by left|done].
    + apply IH. intros m volumeID Hin. apply Hnone. by right.
  - intros m volumeID rc Hin Hid Hrc. by rewrite (Hnone m volumeID) in Hrc.
Qed.

Lemma filterVolumeList_all_public_witness :
  filterVolumeList [Sample.v1; Sample.v2] [] 2%Z [1%Z]
  = Returns [Sample.v1; Sample.v2].
Proof.
  apply filterVolumeList_all_public.
  - by repeat constructor.
  - intros m volumeID rc _ _ Hrc. by apply elem_of_nil in Hrc.
Defined.

(** X8. On a list of documents [filterContainerList] is a filter followed by
    a map, over the identifier field of containers. *)
Theorem filterContainerList_map_filter
    (containerData : list value) (rcs : list ResourceControl)
    (uid : UserID) (teams : list TeamID) :
  Forall (λ d, isDocument containerIdentifier d = true) containerData →
  filterContainerList containerData rcs uid teams
  = Returns (decorated containerIdentifier rcs
               <$> List.filter (visible containerIdentifier rcs uid teams) containerData).
Proof. apply filterList_map_filter. Qed.

Lemma filterContainerList_map_filter_witness :
  filterContainerList [VObject {[ "Id" := VString "v2" ]}]
    [Sample.control [2%Z] []] 2%Z []
  = Returns (decorated containerIdentifier [Sample.control [2%Z] []]
               <$> List.filter (visible containerIdentifier [Sample.control [2%Z] []] 2%Z [])
                     [VObject {[ "Id" := VString "v2" ]}]).
Proof.
  apply filterContainerList_map_filter. by repeat constructor.
Defined.

(** X9. The only error of [filterContainerList] is
    [ErrDockerContainerIdentifierNotFound], returned exactly when the first
    element that is not a document is an object without identifier. *)
Theorem filterContainerList_fails_iff
    (containerData : list value) (rcs : list ResourceControl)
    (uid : UserID) (teams : list TeamID) (e : error) :
  filterContainerList containerData rcs uid teams = Fails e ↔
  e = ErrDockerContainerIdentifierNotFound
  ∧ ∃ before m after,
      containerData = before ++ VObject m :: after
      ∧ Forall (λ d, isDocument containerIdentifier d = true) before
      ∧ lacksIdentifier containerIdentifier m = true.
Proof. apply filterList_Fails_iff. Qed.

Lemma filterContainerList_fails_iff_witness :
  filterContainerList [Sample.v1] [] 2%Z []
  = Fails ErrDockerContainerIdentifierNotFound.
Proof.
  apply (proj2 (filterContainerList_fails_iff [Sample.v1] [] 2%Z []
                  ErrDockerContainerIdentifierNotFound)).
  split; [reflexivity|].
  exists [], {[ "Name" := VString "v1" ]}, [].
  split; [reflexivity|]. split; [constructor|reflexivity].
Defined.

(** X10. On a list of documents [filterServiceList] is a filter followed by
    a map, over the identifier field of services. *)
Theorem filterServiceList_map_filter
    (serviceData : list value) (rcs : list ResourceControl)
    (uid : UserID) (teams : list TeamID) :
  Forall (λ d, isDocument serviceIdentifier d = true) serviceData →
  filterServiceList serviceData rcs uid teams
  = Returns (decorated serviceIdentifier rcs
               <$> List.filter (visible serviceIdentifier rcs uid teams) serviceData).
Proof. apply filterList_map_filter. Qed.

Lemma filterServiceList_map_filter_witness :
  filterServiceList [VObject {[ "ID" := VString "v2" ]}]
    [Sample.control [1%Z] []] 2%Z []
  = Returns (decorated serviceIdentifier [Sample.control [1%Z] []]
               <$> List.filter (visible serviceIdentifier [Sample.control [1%Z] []] 2%Z [])
                     [VObject {[ "ID" := VString "v2" ]}]).
Proof.
  apply filterServiceList_map_filter. by repeat constructor.
Defined.

(** X11. The only error of [filterServiceList] is
    [ErrDockerServiceIdentifierNotFound], returned exactly when the first
    element that is not a document is an object without identifier. *)
Theorem filterServiceList_fails_iff
    (serviceData : list value) (rcs : list ResourceControl)
    (uid : UserID) (teams : list TeamID) (e : error) :
  filterServiceList serviceData rcs uid teams = Fails e ↔
  e = ErrDockerServiceIdentifierNotFound
  ∧ ∃ before m after,
      serviceData = before ++ VObject m :: after
      ∧ Forall (λ d, isDocument serviceIdentifier d = true) before
      ∧ lacksIdentifier serviceIdentifier m = true.
Proof. apply filterList_Fails_iff. Qed.

Lemma filterServiceList_fails_iff_witness :
  filterServiceList [VObject {[ "Id" := VString "s1" ]}] [] 2%Z []
  = Fails ErrDockerServiceIdentifierNotFound.
Proof.
  apply (proj2 (filterServiceList_fails_iff
                  [VObject {[ "Id" := VString "s1" ]}] [] 2%Z []
                  ErrDockerServiceIdentifierNotFound)).
  split; [reflexivity|].
  exists [], {[ "Id" := VString "s1" ]}, [].
  split; [reflexivity|]. split; [constructor|reflexivity].
Defined.


(** * Further properties of the transport *)

(** All that [rewriteOperation] needs before it contacts the engine: the
    caller, the control records and, for a caller who is not an
    administrator, the teams. *)
Definition lookupsSucceed (p : proxyTransport) (request : Request) : bool :=
  match GetTokenData request with
  | Failure _ => false
  | Success tokenData =>
      match ResourceControlService p VolumeResourceControl with
      | Failure _ => false
      | Success _ =>
          if negb (TokenData_Role tokenData =? AdministratorRole)%Z then
            match TeamService p (TokenData_ID tokenData) with
            | Failure _ => false
            | Success _ => true
            end
          else true
      end
  end.

(** The three ways in which a gate ends: an error, a forbidden response, or
    the reply of the engine after one round trip. *)
Definition gateOutcome
    (p : proxyTransport) (request : Request) (served : list Request)
    (r : Reply * list Request) : Prop :=
  (∃ err, r = ((None, Some err), served))
  ∨ (∃ response, r = ((Some response, None), served)
                 ∧ StatusCode response = StatusForbidden)
  ∨ r = (reply (dockerTransport p served request), served ++ [request]).

Lemma Proxy_bind_run {A B} (m : Proxy A) (k : A → Proxy B) served :
  (m ≫= k) served = k (fst (m served)) (snd (m served)).
Proof. unfold mbind, Proxy_bind. by destruct (m served). Qed.

Lemma restrictedOperation_cases p request resourceID served :
  gateOutcome p request served (restrictedOperation p request resourceID served).
Proof.
  unfold restrictedOperation, gateOutcome.
  destruct (GetTokenData request) as [tokenData|err]; [|left; eauto].
  destruct (negb _); [|by right; right].
  destruct (TeamService p _) as [userTeams|err]; [|left; eauto].
  destruct (ResourceControlService p _) as [rcs|err]; [|left; eauto].
  destruct (negb _); [|by right; right].
  right; left. by exists SampleTransport.forbidden.
Qed.

Lemma administratorOperation_cases p request served :
  gateOutcome p request served (administratorOperation p request served).
Proof.
  unfold administratorOperation, gateOutcome.
  destruct (GetTokenData request) as [tokenData|err]; [|left; eauto].
  destruct (negb _); [|by right; right].
  right; left. by exists SampleTransport.forbidden.
Qed.

Lemma gateOutcome_served p request served r :
  gateOutcome p request served r →
  ∃ n, n ≤ 1 ∧ snd r = served ++ replicate n request.
Proof.
  intros [[err ->]|[(response & -> & _)| ->]]; simpl.
  - exists 0. split; [lia|]. simpl. by rewrite app_nil_r.
  - exists 0. split; [lia|]. simpl. by rewrite app_nil_r.
  - by exists 1.
Qed.

Lemma rewriteOperation_served p request operation served :
  snd (rewriteOperation p request operation served)
  = if lookupsSucceed p request then served ++ [request] else served.
Proof.
  unfold rewriteOperation, lookupsSucceed.
  destruct (GetTokenData request) as [tokenData|err]; [|done].
  destruct (ResourceControlService p _) as [rcs|err]; [|done].
  destruct (negb _).
  - destruct (TeamService p _) as [userTeams|err]; [|done].
    rewrite Proxy_bind_run, executeDockerRequest_run. simpl.
    destruct (dockerTransport p served request) as [response|err]; simpl; [|done].
    by destruct (operation _ _ _).
  - rewrite Proxy_bind_run, executeDockerRequest_run. simpl.
    destruct (dockerTransport p served request) as [response|err]; simpl; [|done].
    by destruct (operation _ _ _).
Qed.

Lemma rewriteOperation_at_most_once p request operation served :
  ∃ n, n ≤ 1 ∧ snd (rewriteOperation p request operation served)
               = served ++ replicate n request.
Proof.
  rewrite rewriteOperation_served. destruct (lookupsSucceed p request).
  - by exists 1.
  - exists 0. split; [lia|]. simpl. by rewrite app_nil_r.
Qed.

Lemma proxyDockerRequest_pass_through
    (volumeListOperation volumeInspectOperation : restrictedOperationRequest)
    p request :
  String.prefix "/containers" (URLPath request) = true
  ∨ String.prefix "/services" (URLPath request) = true
  ∨ String.prefix "/volumes" (URLPath request) = false →
  proxyDockerRequest volumeListOperation volumeInspectOperation p request
  = executeDockerRequest p request.
Proof.
  unfold proxyDockerRequest, proxyContainerRequest, proxyServiceRequest.
  intros [->|[H|H]]; [done| |]; destruct (String.prefix "/containers" _);
    try done; rewrite ?H; try done.
  by destruct (String.prefix "/services" _).
Qed.

(** X12. [administratorOperation]: without authentication context the error
    is returned, a caller who is not an administrator gets the forbidden
    response, and in both cases the engine is not contacted; an
    administrator's request is executed once and the engine's reply is
    returned. *)
Theorem administratorOperation_gate
    (p : proxyTransport) (request : Request) (served : list Request) :
  (∀ err,
     GetTokenData request = Failure err →
     administratorOperation p request served = ((None, Some err), served))
  ∧ (∀ tokenData,
       GetTokenData request = Success tokenData →
       TokenData_Role tokenData ≠ AdministratorRole →
       ∃ response,
         administratorOperation p request served = ((Some response, None), served)
         ∧ StatusCode response = StatusForbidden)
  ∧ (∀ tokenData,
       GetTokenData request = Success tokenData →
       TokenData_Role tokenData = AdministratorRole →
       administratorOperation p request served
       = (reply (dockerTransport p served request), served ++ [request])).
Proof.
  unfold administratorOperation. repeat split.
  - by intros err ->.
  - intros tokenData -> Hrole. rewrite (role_not_administrator _ Hrole).
    by exists SampleTransport.forbidden.
  - intros tokenData -> Hrole. by rewrite (role_administrator _ Hrole).
Qed.

Lemma administratorOperation_gate_witness :
  administratorOperation SampleTransport.restricted
    (SampleTransport.deleteV2 None) []
  = ((None, Some ErrMissingContextData), [])
  ∧ (∃ response,
       administratorOperation SampleTransport.restricted
         (SampleTransport.deleteV2 (Some Sample.standardUser)) []
       = ((Some response, None), [])
       ∧ StatusCode response = StatusForbidden)
  ∧ administratorOperation SampleTransport.restricted
      (SampleTransport.deleteV2 (Some Sample.administrator)) []
    = ((Some SampleTransport.noContent, None),
       [SampleTransport.deleteV2 (Some Sample.administrator)]).
Proof.
  split; [|split].
  - apply (proj1 (administratorOperation_gate SampleTransport.restricted
                    (SampleTransport.deleteV2 None) [])).
    reflexivity.
  - apply (proj1 (proj2 (administratorOperation_gate SampleTransport.restricted
                           (SampleTransport.deleteV2 (Some Sample.standardUser)) []))
             Sample.standardUser); [reflexivity|discriminate].
  - apply (proj2 (proj2 (administratorOperation_gate SampleTransport.restricted
                           (SampleTransport.deleteV2 (Some Sample.administrator)) []))
             Sample.administrator); reflexivity.
Defined.

(** X13. A request for /volumes/prune from a caller who is not an
    administrator is answered by the proxy with the forbidden response; the
    engine is not contacted. *)
Theorem RoundTrip_prune_forbidden
    (volumeListOperation volumeInspectOperation : restrictedOperationRequest)
    (p : proxyTransport) (request : Request) (served : list Request)
    (tokenData : TokenData) :
  URLPath request = "/volumes/prune" →
  GetTokenData request = Success tokenData →
  TokenData_Role tokenData ≠ AdministratorRole →
  ∃ response,
    RoundTrip volumeListOperation volumeInspectOperation p request served
    = ((Some response, None), served)
    ∧ StatusCode response = StatusForbidden.
Proof.
  intros Hpath Htoken Hrole.
  unfold RoundTrip, proxyDockerRequest, proxyVolumeRequest. rewrite Hpath. simpl.
  unfold administratorOperation.
  rewrite Htoken, (role_not_administrator _ Hrole).
  by exists SampleTransport.forbidden.
Qed.

Lemma RoundTrip_prune_forbidden_witness :
  ∃ response,
    RoundTrip SampleTransport.keepResponse SampleTransport.keepResponse
      SampleTransport.restricted
      {| Method := "POST"; URLPath := "/volumes/prune";
         TokenContext := Some Sample.standardUser |} []
    = ((Some response, None), [])
    ∧ StatusCode response = StatusForbidden.
Proof.
  apply (RoundTrip_prune_forbidden _ _ _ _ _ Sample.standardUser);
    [reflexivity|reflexivity|discriminate].
Defined.

(** X14. Requests under /containers or /services, and requests outside
    /containers, /services and /volumes, are passed to the engine once,
    whoever the caller is, and the engine's reply is returned. *)
Theorem RoundTrip_pass_through
    (volumeListOperation volumeInspectOperation : restrictedOperationRequest)
    (p : proxyTransport) (request : Request) (served : list Request) :
  String.prefix "/containers" (URLPath request) = true
  ∨ String.prefix "/services" (URLPath request) = true
  ∨ String.prefix "/volumes" (URLPath request) = false →
  RoundTrip volumeListOperation volumeInspectOperation p request served
  = (reply (dockerTransport p served request), served ++ [request]).
Proof.
  intros H. unfold RoundTrip.
  by rewrite (proxyDockerRequest_pass_through _ _ _ _ H).
Qed.

Lemma RoundTrip_pass_through_witness :
  RoundTrip SampleTransport.keepResponse SampleTransport.keepResponse
    SampleTransport.restricted
    {| Method := MethodDelete; URLPath := "/containers/c1"; TokenContext := None |} []
  = ((Some SampleTransport.noContent, None),
     [{| Method := MethodDelete; URLPath := "/containers/c1"; TokenContext := None |}]).
Proof.
  apply (RoundTrip_pass_through SampleTransport.keepResponse SampleTransport.keepResponse
           SampleTransport.restricted
           {| Method := MethodDelete; URLPath := "/containers/c1";
              TokenContext := None |} []).
  left. reflexivity.
Defined.

(** X15. A request for /volumes/create is passed to the engine once and the
    engine's reply is returned; neither the caller nor the control records
    are looked at. *)
Theorem RoundTrip_volume_create
    (volumeListOperation volumeInspectOperation : restrictedOperationRequest)
    (p : proxyTransport) (request : Request) (served : list Request) :
  URLPath request = "/volumes/create" →
  RoundTrip volumeListOperation volumeInspectOperation p request served
  = (reply (dockerTransport p served request), served ++ [request]).
Proof.
  intros Hpath.
  unfold RoundTrip, proxyDockerRequest, proxyVolumeRequest. by rewrite Hpath.
Qed.

Lemma RoundTrip_volume_create_witness :
  RoundTrip SampleTransport.keepResponse SampleTransport.keepResponse
    (SampleTransport.transport (Failure (ErrExternal "store")) (Failure (ErrExternal "teams")))
    {| Method := "POST"; URLPath := "/volumes/create"; TokenContext := None |} []
  = ((Some SampleTransport.noContent, None),
     [{| Method := "POST"; URLPath := "/volumes/create"; TokenContext := None |}]).
Proof.
  apply (RoundTrip_volume_create SampleTransport.keepResponse SampleTransport.keepResponse
           (SampleTransport.transport (Failure (ErrExternal "store"))
              (Failure (ErrExternal "teams")))
           {| Method := "POST"; URLPath := "/volumes/create"; TokenContext := None |} []).
  reflexivity.
Defined.

(** X16. [restrictedOperation] ends in one of three ways: an error with a
    nil response, or the forbidden response with a nil error, both without
    contacting the engine; or the engine's own reply after exactly one round
    trip with the request. *)
Theorem restrictedOperation_outcome
    (p : proxyTransport) (request : Request) (resourceID : string)
    (served : list Request) :
  gateOutcome p request served (restrictedOperation p request resourceID served).
Proof. apply restrictedOperation_cases. Qed.

(** X17. Whether [rewriteOperation] contacts the engine does not depend on
    the callback: the engine serves the request once when the caller, the
    control records and (for a caller who is not an administrator) the teams
    are resolved, and nothing otherwise. *)
Theorem rewriteOperation_contact_independent
    (p : proxyTransport) (request : Request)
    (operation operation' : restrictedOperationRequest) (served : list Request) :
  snd (rewriteOperation p request operation served)
  = snd (rewriteOperation p request operation' served)
  ∧ snd (rewriteOperation p request operation served)
    = if lookupsSucceed p request then served ++ [request] else served.
Proof. by rewrite !rewriteOperation_served. Qed.

(** X18. When the lookups and the engine succeed, the callback of
    [rewriteOperation] is applied to the engine's response and to a context
    holding the caller's id, the volume control records, the administrator
    flag of the role, and the team ids (none for an administrator); the
    rewritten response and the callback's error are returned together. *)
Theorem rewriteOperation_callback_context
    (p : proxyTransport) (request : Request)
    (operation : restrictedOperationRequest) (served : list Request)
    (tokenData : TokenData) (rcs : list ResourceControl)
    (userTeams : list Team) (response : Response) :
  GetTokenData request = Success tokenData →
  ResourceControlService p VolumeResourceControl = Success rcs →
  (TokenData_Role tokenData ≠ AdministratorRole →
   TeamService p (TokenData_ID tokenData) = Success userTeams) →
  dockerTransport p served request = Success response →
  rewriteOperation p request operation served
  = (let '(response', err) :=
       operation request response
         {| isAdmin := (TokenData_Role tokenData =? AdministratorRole)%Z;
            userID := TokenData_ID tokenData;
            userTeamIDs :=
              if (TokenData_Role tokenData =? AdministratorRole)%Z
              then [] else Team_ID <$> userTeams;
            resourceControls := rcs |} in
     (Some response', err),
     served ++ [request]).
Proof.
  intros Htoken Hrcs Hteams Hengine.
  destruct (decide (TokenData_Role tokenData = AdministratorRole)) as [Hrole|Hrole].
  - rewrite (rewriteOperation_administrator _ _ _ _ _ _ Htoken Hrole Hrcs), Hengine.
    by rewrite Hrole.
  - rewrite (rewriteOperation_standard _ _ _ _ _ _ _ Htoken Hrole Hrcs (Hteams Hrole)),
      Hengine.
    apply Z.eqb_neq in Hrole. by rewrite Hrole.
Qed.

Lemma rewriteOperation_callback_context_witness :
  rewriteOperation SampleTransport.restricted
    (SampleTransport.listVolumes (Some Sample.standardUser))
    (λ _ response ctx,
       (response, if isAdmin ctx then None else Some (ErrExternal "shape"))) []
  = ((Some SampleTransport.noContent, Some (ErrExternal "shape")),
     [SampleTransport.listVolumes (Some Sample.standardUser)]).
Proof.
  apply (rewriteOperation_callback_context SampleTransport.restricted
           (SampleTransport.listVolumes (Some Sample.standardUser))
           (λ _ response ctx,
              (response, if isAdmin ctx then None else Some (ErrExternal "shape"))) []
           Sample.standardUser [Sample.control [1%Z] [7%Z]]
           [SampleTransport.team1] SampleTransport.noContent);
    reflexivity.
Defined.

(** X19. When the engine fails, [rewriteOperation] returns the engine's
    error with a nil response after that one round trip, and the callback
    has no part in the result. *)
Theorem rewriteOperation_engine_failure
    (p : proxyTransport) (request : Request)
    (operation : restrictedOperationRequest) (served : list Request)
    (err : error) :
  lookupsSucceed p request = true →
  dockerTransport p served request = Failure err →
  rewriteOperation p request operation served
  = ((None, Some err), served ++ [request]).
Proof.
  unfold lookupsSucceed, rewriteOperation. intros Hlookups Hengine.
  destruct (GetTokenData request) as [tokenData|?]; [|done].
  destruct (ResourceControlService p _) as [rcs|?]; [|done].
  destruct (negb _).
  - destruct (TeamService p _) as [userTeams|?]; [|done].
    by rewrite Proxy_bind_run, executeDockerRequest_run, Hengine.
  - by rewrite Proxy_bind_run, executeDockerRequest_run, Hengine.
Qed.

Lemma rewriteOperation_engine_failure_witness :
  rewriteOperation
    {| dockerTransport := λ _ _, Failure (ErrExternal "dial");
       ResourceControlService := λ _, Success [];
       TeamService := λ _, Success [] |}
    (SampleTransport.listVolumes (Some Sample.standardUser))
    SampleTransport.keepResponse []
  = ((None, Some (ErrExternal "dial")),
     [SampleTransport.listVolumes (Some Sample.standardUser)]).
Proof.
  apply rewriteOperation_engine_failure; reflexivity.
Defined.

(** X20. Whatever the request, the proxy sends the engine nothing but the
    inbound request itself, at most three times, after what the engine had
    already served. *)
Theorem RoundTrip_only_inbound_request
    (volumeListOperation volumeInspectOperation : restrictedOperationRequest)
    (p : proxyTransport) (request : Request) (served : list Request) :
  ∃ n, n ≤ 3
       ∧ snd (RoundTrip volumeListOperation volumeInspectOperation p request served)
         = served ++ replicate n request.
Proof.
  unfold RoundTrip, proxyDockerRequest, proxyContainerRequest, proxyServiceRequest.
  destruct (String.prefix "/containers" _); [exists 1; split; [lia|done]|].
  destruct (String.prefix "/services" _); [exists 1; split; [lia|done]|].
  destruct (String.prefix "/volumes" _); [|exists 1; split; [lia|done]].
  unfold proxyVolumeRequest.
  destruct (String.eqb _ "/volumes/create"); [exists 1; split; [lia|done]|].
  destruct (String.eqb _ "/volumes/prune").
  { destruct (gateOutcome_served _ _ _ _ (administratorOperation_cases p request served))
      as (n & Hn & ->).
    exists n. split; [lia|done]. }
  destruct (String.eqb _ "/volumes").
  { destruct (rewriteOperation_at_most_once p request volumeListOperation served)
      as (n & Hn & ->).
    exists n. split; [lia|done]. }
  rewrite !Proxy_bind_run, executeDockerRequest_run. simpl.
  assert (∃ n1, n1 ≤ 1 ∧
            snd ((if String.eqb (Method request) MethodGet
                  then rewriteOperation p request volumeInspectOperation;; ret tt
                  else ret tt) served)
            = served ++ replicate n1 request) as (n1 & Hn1 & ->).
  { destruct (String.eqb (Method request) MethodGet).
    - rewrite Proxy_bind_run. simpl.
      apply rewriteOperation_at_most_once.
    - exists 0. split; [lia|]. simpl. by rewrite app_nil_r. }
  destruct (gateOutcome_served _ _ _ _
              (restrictedOperation_cases p request (path_Base (URLPath request))
                 (served ++ replicate n1 request))) as (n2 & Hn2 & ->).
  exists (n1 + n2 + 1). split; [lia|].
  by rewrite !replicate_add, <- !app_assoc.
Qed.

(** X21. A by-id volume request with a method other than GET from an
    administrator is executed twice: once by [restrictedOperation], whose
    reply is dropped, and once more by [proxyVolumeRequest], whose reply is
    the second answer of the engine. *)
Theorem proxyVolumeRequest_administrator_twice
    (volumeListOperation volumeInspectOperation : restrictedOperationRequest)
    (p : proxyTransport) (request : Request) (served : list Request)
    (tokenData : TokenData) :
  URLPath request ≠ "/volumes/create" →
  URLPath request ≠ "/volumes/prune" →
  URLPath request ≠ "/volumes" →
  Method request ≠ MethodGet →
  GetTokenData request = Success tokenData →
  TokenData_Role tokenData = AdministratorRole →
  proxyVolumeRequest volumeListOperation volumeInspectOperation p request served
  = (reply (dockerTransport p (served ++ [request]) request),
     served ++ [request; request]).
Proof.
  intros Hcreate Hprune Hlist Hmethod Htoken Hrole. unfold proxyVolumeRequest.
  apply String.eqb_neq in Hcreate, Hprune, Hlist, Hmethod.
  rewrite Hcreate, Hprune, Hlist, Hmethod.
  rewrite !Proxy_bind_run. simpl.
  rewrite (restrictedOperation_administrator _ _ _ _ Htoken Hrole).
  rewrite !executeDockerRequest_run. simpl.
  by rewrite <- app_assoc.
Qed.

Lemma proxyVolumeRequest_administrator_twice_witness :
  proxyVolumeRequest SampleTransport.keepResponse SampleTransport.keepResponse
    SampleTransport.restricted
    (SampleTransport.deleteV2 (Some Sample.administrator)) []
  = ((Some SampleTransport.noContent, None),
     [SampleTransport.deleteV2 (Some Sample.administrator);
      SampleTransport.deleteV2 (Some Sample.administrator)]).
Proof.
  apply (proxyVolumeRequest_administrator_twice
           SampleTransport.keepResponse SampleTransport.keepResponse
           SampleTransport.restricted
           (SampleTransport.deleteV2 (Some Sample.administrator)) []
           Sample.administrator); try discriminate; reflexivity.
Defined.


(** * The resource identifier taken from the path *)

Definition slashFree (l : list ascii) : bool :=
  forallb (λ c, negb (Ascii.eqb c "/")) l.

Lemma list_ascii_of_string_append (s1 s2 : string) :
  String.list_ascii_of_string (s1 +:+ s2)
  = String.list_ascii_of_string s1 ++ String.list_ascii_of_string s2.
Proof. induction s1 as [|c s1 IH]; simpl; [done|by rewrite IH]. Qed.

Lemma slashFree_app (l1 l2 : list ascii) :
  slashFree (l1 ++ l2) = slashFree l1 && slashFree l2.
Proof. apply forallb_app. Qed.

Lemma slashFree_rev (l : list ascii) : slashFree (rev l) = slashFree l.
Proof.
  induction l as [|c l IH]; [done|].
  change (rev (c :: l)) with (rev l ++ [c]).
  rewrite slashFree_app, IH. simpl. by rewrite andb_true_r, andb_comm.
Qed.

Lemma untilSlash_slashFree (l : list ascii) : slashFree (untilSlash l) = true.
Proof.
  induction l as [|c l IH]; [done|]. simpl.
  destruct (Ascii.eqb c "/") eqn:Hc; [done|]. simpl. by rewrite Hc.
Qed.

Lemma untilSlash_app (l rest : list ascii) :
  slashFree l = true → untilSlash (l ++ "/"%char :: rest) = l.
Proof.
  induction l as [|c l IH]; [done|]. simpl.
  destruct (Ascii.eqb c "/"); [done|]. simpl. intros H. by rewrite IH.
Qed.

Lemma dropSlashes_slashFree (l rest : list ascii) :
  l ≠ [] → slashFree l = true → dropSlashes (l ++ rest) = l ++ rest.
Proof.
  destruct l as [|c l]; [done|]. simpl. intros _.
  by destruct (Ascii.eqb c "/").
Qed.

Lemma string_eqb_empty (s : string) :
  String.eqb s "" = true ↔ String.list_ascii_of_string s = [].
Proof. by destruct s. Qed.

(** X22. For a path that ends in a slash followed by a non-empty name
    without slashes, such as /volumes/{name}, [path.Base] is that name: it is
    the resource identifier that [proxyVolumeRequest] hands to
    [restrictedOperation]. *)
Theorem path_Base_last_segment (dir name : string) :
  name ≠ "" →
  slashFree (String.list_ascii_of_string name) = true →
  path_Base (dir +:+ "/" +:+ name) = name.
Proof.
  intros Hname Hfree. unfold path_Base.
  assert (String.list_ascii_of_string name ≠ []) as Hne.
  { intros H. apply Hname. by destruct name. }
  destruct (String.eqb (dir +:+ "/" +:+ name) "") eqn:Hempty.
  { apply string_eqb_empty in Hempty.
    rewrite !list_ascii_of_string_append in Hempty.
    by destruct (String.list_ascii_of_string dir). }
  rewrite !list_ascii_of_string_append, !rev_app_distr. simpl.
  rewrite <- !app_assoc. simpl.
  rewrite dropSlashes_slashFree, untilSlash_app, rev_involutive,
    String.string_of_list_ascii_of_string.
  - destruct (String.eqb name "") eqn:Hn; [|done].
    by apply String.eqb_eq in Hn.
  - by rewrite slashFree_rev.
  - intros H. apply Hne. by rewrite <- (rev_involutive _), H.
  - by rewrite slashFree_rev.
Qed.

Lemma path_Base_last_segment_witness :
  path_Base ("/volumes" +:+ "/" +:+ "my-volume") = "my-volume".
Proof.
  apply path_Base_last_segment; [discriminate|reflexivity].
Defined.

(** X23. [path.Base] never yields the empty string, and its result is the
    single slash or contains no slash at all. *)
Theorem path_Base_shape (path : string) :
  path_Base path ≠ ""
  ∧ (path_Base path = "/"
     ∨ slashFree (String.list_ascii_of_string (path_Base path)) = true).
Proof.
  unfold path_Base.
  destruct (String.eqb path ""); [split; [done|by right]|].
  destruct (String.eqb _ "") eqn:Hbase; [split; [done|by left]|].
  split.
  - intros H. by rewrite H in Hbase.
  - right. by rewrite String.list_ascii_of_string_of_list_ascii, slashFree_rev,
      untilSlash_slashFree.
Qed.


(** * Where the callbacks are invoked *)

(** X24. The list callback is reached only for the path /volumes, and the
    inspect callback only for GET requests: for any other path the proxy's
    reply and what it sends to the engine are the same whatever the list
    callback is, and for any other method they are the same whatever the
    inspect callback is. *)
Theorem RoundTrip_callbacks_not_invoked
    (p : proxyTransport) (request : Request) (served : list Request) :
  (URLPath request ≠ "/volumes" →
   ∀ volumeListOperation volumeListOperation' volumeInspectOperation,
     RoundTrip volumeListOperation volumeInspectOperation p request served
     = RoundTrip volumeListOperation' volumeInspectOperation p request served)
  ∧ (Method request ≠ MethodGet →
     ∀ volumeListOperation volumeInspectOperation volumeInspectOperation',
       RoundTrip volumeListOperation volumeInspectOperation p request served
       = RoundTrip volumeListOperation volumeInspectOperation' p request served).
Proof.
  split.
  - intros Hlist l l' i. apply String.eqb_neq in Hlist.
    unfold RoundTrip, proxyDockerRequest, proxyVolumeRequest.
    by rewrite Hlist.
  - intros Hmethod l i i'. apply String.eqb_neq in Hmethod.
    unfold RoundTrip, proxyDockerRequest, proxyVolumeRequest.
    by rewrite Hmethod.
Qed.

Lemma RoundTrip_callbacks_not_invoked_witness :
  RoundTrip SampleTransport.keepResponse SampleTransport.keepResponse
    SampleTransport.restricted
    {| Method := MethodGet; URLPath := "/volumes/v1";
       TokenContext := Some Sample.standardUser |} []
  = RoundTrip (λ _ response _, (response, Some ErrDockerVolumeIdentifierNotFound))
      SampleTransport.keepResponse SampleTransport.restricted
      {| Method := MethodGet; URLPath := "/volumes/v1";
         TokenContext := Some Sample.standardUser |} []
  ∧ RoundTrip SampleTransport.keepResponse SampleTransport.keepResponse
      SampleTransport.restricted
      (SampleTransport.deleteV2 (Some Sample.standardUser)) []
    = RoundTrip SampleTransport.keepResponse
        (λ _ response _, (response, Some ErrDockerVolumeIdentifierNotFound))
        SampleTransport.restricted
        (SampleTransport.deleteV2 (Some Sample.standardUser)) [].
Proof.
  split.
  - apply (proj1 (RoundTrip_callbacks_not_invoked SampleTransport.restricted
                    {| Method := MethodGet; URLPath := "/volumes/v1";
                       TokenContext := Some Sample.standardUser |} [])).
    discriminate.
  - apply (proj2 (RoundTrip_callbacks_not_invoked SampleTransport.restricted
                    (SampleTransport.deleteV2 (Some Sample.standardUser)) [])).
    discriminate.
Defined.


(** * The access decision in both paths *)








(** * The list filter under an operation context *)

(** Modelled from the spec: the access decision that the list callback
    takes for a caller described by an operation context. The callback
    [volumeListOperation] is not part of the sources; [rewriteOperation]
    hands it the context with [isAdmin]. "allowed(caller, groups, control) :=
    control == null OR caller.isAdmin OR caller.id in control.users OR groups
    meet control.groups": the administrator flag of the context, or else the
    shared predicate. *)
Definition contextAccess
    (ctx : restrictedOperationContext) (control : option ResourceControl) : bool :=
  isAdmin ctx || canUserAccessResource (userID ctx) (userTeamIDs ctx) control.

(** Modelled from the spec: the filtering step of the list callback, which
    is not part of the sources. "Inputs: decoded sequence of Resource
    Documents, full control-record set for the kind, Operation Context. For
    each document: read its identifier field. Identifier field absent: fail
    the whole operation. Identifier present, no matching control record:
    keep document unchanged. Matching control record, Access Decision allows:
    keep document, with ownership metadata merged into it. Matching control
    record, Access Decision denies: drop the document." Elements that are
    not objects, or whose identifier is not a string, end the loop as they do
    in [filterLoop]. *)
Fixpoint filterLoopWithContext
    (identifier : string) (errIdentifierNotFound : error)
    (ctx : restrictedOperationContext)
    (data : list value) (filtered : list value) : result (list value) :=
  match data with
  | [] => Returns filtered
  | document :: rest =>
      match document with
      | VObject object =>
          match object !! identifier with
          | None | Some VNil => Fails errIdentifierNotFound
          | Some (VString resourceID) =>
              match getResourceControlByResourceID resourceID (resourceControls ctx) with
              | None =>
                  filterLoopWithContext identifier errIdentifierNotFound ctx rest
                    (filtered ++ [VObject object])
              | Some control =>
                  if contextAccess ctx (Some control)
                  then filterLoopWithContext identifier errIdentifierNotFound ctx rest
                         (filtered ++ [VObject (decorateObject object control)])
                  else filterLoopWithContext identifier errIdentifierNotFound ctx rest
                         filtered
              end
          | Some _ => Panics
          end
      | _ => Panics
      end
  end.

Definition filterVolumeListWithContext
    (ctx : restrictedOperationContext) (volumeData : list value)
  : result (list value) :=
  filterLoopWithContext volumeIdentifier ErrDockerVolumeIdentifierNotFound
    ctx volumeData [].

#[global] Arguments contextAccess : simpl never.

(** The modelled decision is the access decision of the specification. *)
Lemma contextAccess_allowed ctx control :
  contextAccess ctx control = true
  ↔ allowed (isAdmin ctx) (userID ctx) (userTeamIDs ctx) control.
Proof.
  unfold contextAccess. rewrite orb_true_iff, canUserAccessResource_allowed.
  unfold allowed. split.
  - intros [?|[?|[?|[?|?]]]]; try done; auto.
  - intros [?|[?|[?|?]]]; auto.
Qed.

(** For a caller who is not an administrator the modelled step is the
    filter of the sources, called with the id, teams and records of the
    context. *)
Lemma filterLoopWithContext_standard identifier err ctx data filtered :
  isAdmin ctx = false →
  filterLoopWithContext identifier err ctx data filtered
  = filterLoop identifier err (resourceControls ctx) (userID ctx) (userTeamIDs ctx)
      data filtered.
Proof.
  intros Hstandard. revert filtered.
  induction data as [|d data IH]; intros filtered; [done|]. simpl.
  destruct d as [| | | | |m]; try done.
  destruct (m !! identifier) as [[| | |resourceID| |]|]; try done.
  destruct (getResourceControlByResourceID _ _) as [rc|]; [|apply IH].
  unfold contextAccess. rewrite Hstandard. simpl.
  by destruct (canUserAccessResource _ _ _).
Qed.

Lemma filterVolumeListWithContext_standard ctx (volumeData : list value) :
  isAdmin ctx = false →
  filterVolumeListWithContext ctx volumeData
  = filterVolumeList volumeData (resourceControls ctx) (userID ctx) (userTeamIDs ctx).
Proof. apply filterLoopWithContext_standard. Qed.




